(** * Soil-test recommendation engine: a shallow embedding of [utils.py]

    The engine of [utils.py] maps the four measurements of a [SoilTest]
    (pH, nitrogen, phosphorus, potassium) to a dictionary of textual
    recommendations, an overall priority and a list of action
    dictionaries.  This file embeds [models.SoilTest], the five dosage
    functions, [generate_fertilizer_recommendations] and
    [analyze_soil_health], and proves the properties stated about them.

    Modelling choices.
    - Measurements are Python floats.  Every threshold of the engine
      ([6.0], [7.5], [5.5], [20], ...) is a binary fraction, hence exactly
      representable, so a comparison of a finite float against a threshold
      is the comparison of the rational numbers they denote.  Measurements
      are therefore rationals ([Q]) with the boolean comparisons
      [py.lt], [py.le].  NaN and the infinities are outside the model.
    - Module [ieee] repeats the engine and the score on floats with their
      special values: minus zero, which equals zero and is printed
      [-0.0], the infinities, and NaN, with which every comparison is
      false.  What depends on these values is stated there: what two
      runs on equal measurements have in common, when the actions list is
      empty, and what an empty list says about the score.  On finite
      floats the two embeddings coincide ([ieee_generate_of_soil_test],
      [ieee_analyze_of_soil_test]).
    - Dictionaries are finite maps with string keys ([gmap string _]);
      [d[k]] is a lookup that raises [KeyError] when the key is absent, so
      the engine lives in a small error monad.
    - The text Python produces when a float is interpolated in an f-string
      is a builtin outside the repository: it is a parameter [float_str]
      of the embedding.  Integers are printed in decimal.
    - The health score adds [0.7] and [0.4], which are not binary
      fractions.  The embedding computes it exactly, in [Q]; module
      [binary64] repeats the computation on IEEE doubles, and the two are
      proved to give the same status and, after rounding to one decimal,
      the same score. *)

From Stdlib Require Import QArith Qround Qabs Lqa.
From Stdlib Require Import Floats.PrimFloat Floats.SpecFloat Floats.FloatOps.
From stdpp Require Import gmap strings list fin_maps pretty.

Open Scope Q_scope.

(** ** Python numbers, comparisons and exceptions *)

Module py.

(** [x < y], [x > y], [x <= y] and [x >= y] on numbers. *)
Definition lt (x y : Q) : bool := negb (Qle_bool y x).
Definition gt (x y : Q) : bool := lt y x.
Definition le (x y : Q) : bool := Qle_bool x y.
Definition ge (x y : Q) : bool := le y x.

(** [str(n)] for an [int]. *)
Definition int_str (n : Z) : string := pretty n.

(** Truthiness of a list: [if l:] holds for a non-empty list. *)
Definition truthy {A} (l : list A) : bool :=
  match l with [] => false | _ :: _ => true end.

Inductive exn := KeyError (key : string).

Inductive result (A : Type) :=
| Ok (a : A)
| Raise (e : exn).
Arguments Ok {A} a.
Arguments Raise {A} e.

#[export] Instance result_ret : MRet result := fun A a => Ok a.
#[export] Instance result_bind : MBind result := fun A B k m =>
  match m with
  | Ok a => k a
  | Raise e => Raise e
  end.

(** [d[k]]. *)
Definition getitem {V} (d : gmap string V) (k : string) : result V :=
  match d !! k with
  | Some v => Ok v
  | None => Raise (KeyError k)
  end.

(** [round(x, 1)]: the nearest multiple of one tenth, a tie going to the
    even multiple. *)
Definition round_half_even (x : Q) : Z :=
  let f := Qfloor x in
  let r := x - inject_Z f in
  if lt r (1 # 2) then f
  else if lt (1 # 2) r then (f + 1)%Z
  else if Z.even f then f else (f + 1)%Z.

Definition round1 (x : Q) : Q := inject_Z (round_half_even (x * 10)) / 10.

End py.
Import py.

(** ** [models.py] *)

Module models.

Record SoilTest := {
  id : option Z;
  location : string;
  latitude : option Q;
  longitude : option Q;
  ph : Q;
  nitrogen : Q;
  phosphorus : Q;
  potassium : Q;
  notes : string;
  test_date : string
}.

End models.

Abbreviation SoilTest := models.SoilTest.

(** ** [utils.py]: dosage tables *)

Definition calculate_lime_requirement (ph : Q) : Z :=
  if lt ph 5.0 then 15
  else if lt ph 5.5 then 12
  else if lt ph 6.0 then 8
  else 5.

Definition calculate_sulfur_requirement (ph : Q) : Z :=
  if gt ph 8.0 then 10
  else if gt ph 7.5 then 6
  else 3.

Definition calculate_nitrogen_requirement (nitrogen : Q) : Z :=
  if lt nitrogen 10 then 4
  else if lt nitrogen 20 then 2
  else 1.

Definition calculate_phosphorus_requirement (phosphorus : Q) : Z :=
  if lt phosphorus 5 then 3
  else if lt phosphorus 15 then 2
  else 1.

Definition calculate_potassium_requirement (potassium : Q) : Z :=
  if lt potassium 50 then 4
  else if lt potassium 100 then 3
  else 1.

(** ** [utils.py]: the recommendation engine *)

(** Values stored in the dictionaries the engine returns. *)
Inductive value :=
| VStr (s : string)
| VNum (x : Q)
| VList (l : list (gmap string string)).

(** The engine threads two mutable objects through its four analyses: the
    [recommendations] dictionary and the [actions] list. *)
Definition store : Type := gmap string value * list (gmap string string).

(** A dictionary display [{'type': .., 'action': .., 'amount': ..,
    'priority': ..}]. *)
Definition action_dict (type action amount priority : string)
  : gmap string string :=
  list_to_map [("type", type); ("action", action);
               ("amount", amount); ("priority", priority)].

(** [[a for a in actions if a['priority'] == p]]. *)
Fixpoint select_priority (p : string) (actions : list (gmap string string))
  : result (list (gmap string string)) :=
  match actions with
  | [] => Ok []
  | a :: rest =>
      v ← getitem a "priority";
      kept ← select_priority p rest;
      Ok (if bool_decide (v = p) then a :: kept else kept)
  end.

Section Engine.

(** The text of a float interpolated in an f-string. *)
Variable float_str : Q -> string.

Definition ph_analysis (soil_test : SoilTest) (st : store) : store :=
  let '(recommendations, actions) := st in
  let ph := models.ph soil_test in
  if lt ph 6.0 then
    let recommendations :=
      <["ph_recommendation" := VStr ("Soil is acidic (pH " +:+ float_str ph +:+ "). Apply lime to raise pH to 6.0-7.0 range for optimal nutrient availability.")]> recommendations in
    let actions := actions ++
      [action_dict "pH adjustment" "Apply agricultural lime"
         (int_str (calculate_lime_requirement ph) +:+ " lbs per 1000 sq ft")
         "high"] in
    (<["priority" := VStr "high"]> recommendations, actions)
  else if gt ph 7.5 then
    let recommendations :=
      <["ph_recommendation" := VStr ("Soil is alkaline (pH " +:+ float_str ph +:+ "). Apply sulfur or organic matter to lower pH.")]> recommendations in
    let actions := actions ++
      [action_dict "pH adjustment" "Apply elemental sulfur"
         (int_str (calculate_sulfur_requirement ph) +:+ " lbs per 1000 sq ft")
         "high"] in
    (<["priority" := VStr "high"]> recommendations, actions)
  else
    (<["ph_recommendation" := VStr ("pH level (" +:+ float_str ph +:+ ") is optimal for most crops.")]> recommendations,
     actions).

Definition nitrogen_analysis (soil_test : SoilTest) (st : store) : store :=
  let '(recommendations, actions) := st in
  let nitrogen := models.nitrogen soil_test in
  if lt nitrogen 20 then
    (<["nitrogen_recommendation" := VStr ("Low nitrogen levels (" +:+ float_str nitrogen +:+ " ppm). Apply nitrogen-rich fertilizer or compost.")]> recommendations,
     actions ++
      [action_dict "nitrogen" "Apply nitrogen fertilizer (21-0-0 or similar)"
         (int_str (calculate_nitrogen_requirement nitrogen) +:+ " lbs per 1000 sq ft")
         "medium"])
  else if gt nitrogen 50 then
    (<["nitrogen_recommendation" := VStr ("High nitrogen levels (" +:+ float_str nitrogen +:+ " ppm). Reduce nitrogen fertilization to prevent burning and runoff.")]> recommendations,
     actions ++
      [action_dict "nitrogen" "Reduce or skip nitrogen fertilization"
         "Monitor and test again in 6 months" "low"])
  else
    (<["nitrogen_recommendation" := VStr ("Nitrogen levels (" +:+ float_str nitrogen +:+ " ppm) are adequate.")]> recommendations,
     actions).

Definition phosphorus_analysis (soil_test : SoilTest) (st : store) : store :=
  let '(recommendations, actions) := st in
  let phosphorus := models.phosphorus soil_test in
  if lt phosphorus 15 then
    (<["phosphorus_recommendation" := VStr ("Low phosphorus levels (" +:+ float_str phosphorus +:+ " ppm). Apply phosphorus fertilizer for strong root development.")]> recommendations,
     actions ++
      [action_dict "phosphorus" "Apply phosphorus fertilizer (0-46-0 or bone meal)"
         (int_str (calculate_phosphorus_requirement phosphorus) +:+ " lbs per 1000 sq ft")
         "medium"])
  else if gt phosphorus 50 then
    (<["phosphorus_recommendation" := VStr ("High phosphorus levels (" +:+ float_str phosphorus +:+ " ppm). Avoid phosphorus fertilizers.")]> recommendations,
     actions ++
      [action_dict "phosphorus" "Skip phosphorus fertilization"
         "Use low or no-phosphorus fertilizers" "low"])
  else
    (<["phosphorus_recommendation" := VStr ("Phosphorus levels (" +:+ float_str phosphorus +:+ " ppm) are sufficient.")]> recommendations,
     actions).

Definition potassium_analysis (soil_test : SoilTest) (st : store) : store :=
  let '(recommendations, actions) := st in
  let potassium := models.potassium soil_test in
  if lt potassium 100 then
    (<["potassium_recommendation" := VStr ("Low potassium levels (" +:+ float_str potassium +:+ " ppm). Apply potassium fertilizer for plant health and disease resistance.")]> recommendations,
     actions ++
      [action_dict "potassium" "Apply potassium fertilizer (0-0-60 or potash)"
         (int_str (calculate_potassium_requirement potassium) +:+ " lbs per 1000 sq ft")
         "medium"])
  else if gt potassium 300 then
    (<["potassium_recommendation" := VStr ("High potassium levels (" +:+ float_str potassium +:+ " ppm). Reduce potassium fertilization.")]> recommendations,
     actions ++
      [action_dict "potassium" "Reduce potassium fertilization"
         "Monitor levels and retest in 12 months" "low"])
  else
    (<["potassium_recommendation" := VStr ("Potassium levels (" +:+ float_str potassium +:+ " ppm) are adequate.")]> recommendations,
     actions).

(** The last part of the engine: the overall verdict and the priority
    roll-up over the actions collected so far. *)
Definition overall_recommendation (st : store) : result (gmap string value) :=
  let '(recommendations, actions) := st in
  high_priority_actions ← select_priority "high" actions;
  medium_priority_actions ← select_priority "medium" actions;
  let recommendations :=
    if truthy high_priority_actions then
      <["priority" := VStr "high"]>
        (<["overall" := VStr "Immediate attention required for soil pH adjustment. Address pH issues first, then nutrient deficiencies."]> recommendations)
    else if truthy medium_priority_actions then
      <["priority" := VStr "medium"]>
        (<["overall" := VStr "Moderate nutrient deficiencies detected. Apply recommended fertilizers for optimal plant growth."]> recommendations)
    else
      <["priority" := VStr "low"]>
        (<["overall" := VStr "Soil nutrient levels are generally good. Continue regular monitoring and maintenance."]> recommendations) in
  Ok (<["actions" := VList actions]> recommendations).

Definition initial_recommendations : gmap string value :=
  list_to_map [("overall", VStr ""); ("ph_recommendation", VStr "");
               ("nitrogen_recommendation", VStr "");
               ("phosphorus_recommendation", VStr "");
               ("potassium_recommendation", VStr "");
               ("priority", VStr "medium"); ("actions", VList [])].

Definition generate_fertilizer_recommendations (soil_test : SoilTest)
  : result (gmap string value) :=
  let recommendations := initial_recommendations in
  let actions := [] in
  let st := ph_analysis soil_test (recommendations, actions) in
  let st := nitrogen_analysis soil_test st in
  let st := phosphorus_analysis soil_test st in
  let st := potassium_analysis soil_test st in
  overall_recommendation st.

End Engine.

(** ** [utils.py]: the soil-health score *)

(** The four scoring steps, each adding to the running [health_score]. *)
Definition ph_score (soil_test : SoilTest) (health_score : Q) : Q :=
  let ph := models.ph soil_test in
  if le 6.0 ph && le ph 7.0 then health_score + 1
  else if le 5.5 ph && le ph 7.5 then health_score + 0.7
  else if le 5.0 ph && le ph 8.0 then health_score + 0.4
  else health_score.

Definition nitrogen_score (soil_test : SoilTest) (health_score : Q) : Q :=
  let nitrogen := models.nitrogen soil_test in
  if le 20 nitrogen && le nitrogen 50 then health_score + 1
  else if le 15 nitrogen && le nitrogen 60 then health_score + 0.7
  else if le 10 nitrogen && le nitrogen 80 then health_score + 0.4
  else health_score.

Definition phosphorus_score (soil_test : SoilTest) (health_score : Q) : Q :=
  let phosphorus := models.phosphorus soil_test in
  if le 15 phosphorus && le phosphorus 50 then health_score + 1
  else if le 10 phosphorus && le phosphorus 60 then health_score + 0.7
  else if le 5 phosphorus && le phosphorus 80 then health_score + 0.4
  else health_score.

Definition potassium_score (soil_test : SoilTest) (health_score : Q) : Q :=
  let potassium := models.potassium soil_test in
  if le 100 potassium && le potassium 300 then health_score + 1
  else if le 75 potassium && le potassium 400 then health_score + 0.7
  else if le 50 potassium && le potassium 500 then health_score + 0.4
  else health_score.

(** The status and the description chosen from the percentage. *)
Definition health_verdict (health_percentage : Q) : string * string :=
  if ge health_percentage 80 then
    ("Excellent", "Your soil is in excellent condition with optimal nutrient levels.")
  else if ge health_percentage 60 then
    ("Good", "Your soil is in good condition with minor adjustments needed.")
  else if ge health_percentage 40 then
    ("Fair", "Your soil needs some attention to improve nutrient levels.")
  else
    ("Poor", "Your soil requires significant improvement in multiple areas.").

Definition analyze_soil_health (soil_test : SoilTest) : gmap string value :=
  let health_score : Q := 0 in
  let total_factors : Q := 4 in
  let health_score := ph_score soil_test health_score in
  let health_score := nitrogen_score soil_test health_score in
  let health_score := phosphorus_score soil_test health_score in
  let health_score := potassium_score soil_test health_score in
  let health_percentage := (health_score / total_factors) * 100 in
  let '(health_status, health_description) := health_verdict health_percentage in
  list_to_map [("score", VNum (round1 health_percentage));
               ("status", VStr health_status);
               ("description", VStr health_description)].

(** ** The soil-health score in binary64 arithmetic *)

(** The running score is the one place where the code computes with
    numbers that are not binary fractions ([0.7], [0.4]).  This module
    repeats the scoring steps with the accumulator a binary64 float, as
    Python runs them: the band tests still compare the measurement with
    exact thresholds, the additions, the division and the multiplication
    round to nearest-even.  (The score starts as the [int] 0 and stays an
    [int] while only 1 is added; sums of small integers are exact in
    binary64, so accumulating in floats from [0.0] gives the same value.) *)
Module binary64.

(** The doubles that the literals [0.7] and [0.4] denote. *)
Definition f0_7 : float := 0x1.6666666666666p-1%float.
Definition f0_4 : float := 0x1.999999999999ap-2%float.

Definition ph_score (soil_test : SoilTest) (health_score : float) : float :=
  let ph := models.ph soil_test in
  if le 6.0 ph && le ph 7.0 then (health_score + 1)%float
  else if le 5.5 ph && le ph 7.5 then (health_score + f0_7)%float
  else if le 5.0 ph && le ph 8.0 then (health_score + f0_4)%float
  else health_score.

Definition nitrogen_score (soil_test : SoilTest) (health_score : float) : float :=
  let nitrogen := models.nitrogen soil_test in
  if le 20 nitrogen && le nitrogen 50 then (health_score + 1)%float
  else if le 15 nitrogen && le nitrogen 60 then (health_score + f0_7)%float
  else if le 10 nitrogen && le nitrogen 80 then (health_score + f0_4)%float
  else health_score.

Definition phosphorus_score (soil_test : SoilTest) (health_score : float) : float :=
  let phosphorus := models.phosphorus soil_test in
  if le 15 phosphorus && le phosphorus 50 then (health_score + 1)%float
  else if le 10 phosphorus && le phosphorus 60 then (health_score + f0_7)%float
  else if le 5 phosphorus && le phosphorus 80 then (health_score + f0_4)%float
  else health_score.

Definition potassium_score (soil_test : SoilTest) (health_score : float) : float :=
  let potassium := models.potassium soil_test in
  if le 100 potassium && le potassium 300 then (health_score + 1)%float
  else if le 75 potassium && le potassium 400 then (health_score + f0_7)%float
  else if le 50 potassium && le potassium 500 then (health_score + f0_4)%float
  else health_score.

Definition health_percentage (soil_test : SoilTest) : float :=
  let health_score := 0%float in
  let total_factors := 4%float in
  let health_score := ph_score soil_test health_score in
  let health_score := nitrogen_score soil_test health_score in
  let health_score := phosphorus_score soil_test health_score in
  let health_score := potassium_score soil_test health_score in
  ((health_score / total_factors) * 100)%float.

Definition health_status (health_percentage : float) : string :=
  if (80 <=? health_percentage)%float then "Excellent"
  else if (60 <=? health_percentage)%float then "Good"
  else if (40 <=? health_percentage)%float then "Fair"
  else "Poor".

(** The rational number a finite double denotes. *)
Definition to_Q (x : float) : option Q :=
  match Prim2SF x with
  | S754_zero _ => Some 0
  | S754_finite negative m e =>
      Some ((if negative then -1 else 1) * inject_Z (Z.pos m) * 2 ^ e)
  | _ => None
  end.

End binary64.

(** ** Vocabulary of the specification *)

(** The three severities, ordered low < medium < high, and the largest
    severity of a list, low for the empty list. *)
Inductive priority := low | medium | high.

#[export] Instance priority_eq_dec : EqDecision priority.
Proof. solve_decision. Defined.

Definition priority_str (p : priority) : string :=
  match p with low => "low" | medium => "medium" | high => "high" end.

Definition priority_of_str (s : string) : option priority :=
  if bool_decide (s = "high") then Some high
  else if bool_decide (s = "medium") then Some medium
  else if bool_decide (s = "low") then Some low
  else None.

Definition severity (p : priority) : nat :=
  match p with low => 0 | medium => 1 | high => 2 end.

Definition priority_max (p q : priority) : priority :=
  if (severity p <? severity q)%nat then q else p.

Definition max_severity (ps : list priority) : priority :=
  foldr priority_max low ps.

(** The severity an action dictionary carries under its ['priority'] key. *)
Definition action_priority (a : gmap string string) : option priority :=
  a !! "priority" ≫= priority_of_str.

(** The actions of a list that concern one nutrient (their ['type']). *)
Definition actions_of_type (ty : string) (actions : list (gmap string string))
  : list (gmap string string) :=
  filter (fun a => a !! "type" = Some ty) actions.

(** The amount text of a numeric dosage. *)
Definition lbs (dosage : Z) : string := int_str dosage +:+ " lbs per 1000 sq ft".

(** The seven keys of a recommendation. *)
Definition recommendation_keys : list string :=
  ["overall"; "ph_recommendation"; "nitrogen_recommendation";
   "phosphorus_recommendation"; "potassium_recommendation";
   "priority"; "actions"].

(** Nested tolerance bands of the health score: three closed intervals,
    from the tightest to the widest, and what a measurement contributes. *)
Record bands := Bands { tightest : Q * Q; next_band : Q * Q; widest : Q * Q }.

Definition within (b : Q * Q) (x : Q) : Prop := b.1 <= x /\ x <= b.2.

Inductive contributes (b : bands) (x : Q) : Q -> Prop :=
| contributes_tightest :
    within (tightest b) x -> contributes b x 1
| contributes_next :
    ~ within (tightest b) x -> within (next_band b) x -> contributes b x 0.7
| contributes_widest :
    ~ within (tightest b) x -> ~ within (next_band b) x ->
    within (widest b) x -> contributes b x 0.4
| contributes_outside :
    ~ within (tightest b) x -> ~ within (next_band b) x ->
    ~ within (widest b) x -> contributes b x 0.

Definition ph_bands : bands := Bands (6.0, 7.0) (5.5, 7.5) (5.0, 8.0).
Definition nitrogen_bands : bands := Bands (20, 50) (15, 60) (10, 80).
Definition phosphorus_bands : bands := Bands (15, 50) (10, 60) (5, 80).
Definition potassium_bands : bands := Bands (100, 300) (75, 400) (50, 500).

(** The store after the four analyses, and what one analysis appends to the
    actions list, read off the analysis itself on an empty list. *)
Definition analyses (float_str : Q -> string) (soil_test : SoilTest) : store :=
  potassium_analysis float_str soil_test
    (phosphorus_analysis float_str soil_test
       (nitrogen_analysis float_str soil_test
          (ph_analysis float_str soil_test (initial_recommendations, [])))).

Definition appended (analysis : store -> store) : list (gmap string string) :=
  (analysis (∅, [])).2.

Definition emitted (float_str : Q -> string) (soil_test : SoilTest)
  : list (gmap string string) :=
  appended (ph_analysis float_str soil_test) ++
  appended (nitrogen_analysis float_str soil_test) ++
  appended (phosphorus_analysis float_str soil_test) ++
  appended (potassium_analysis float_str soil_test).

(** The overall verdict that goes with each rolled-up priority. *)
Definition overall_text (p : priority) : string :=
  match p with
  | high => "Immediate attention required for soil pH adjustment. Address pH issues first, then nutrient deficiencies."
  | medium => "Moderate nutrient deficiencies detected. Apply recommended fertilizers for optimal plant growth."
  | low => "Soil nutrient levels are generally good. Continue regular monitoring and maintenance."
  end.

(** The diagnoses of the specification and the message that reports each
    of them in the returned dictionary. *)
Inductive ph_class := acidic | alkaline | optimal.
Inductive nutrient_class := deficient | excessive | adequate.

Definition ph_text (float_str : Q -> string) (c : ph_class) (x : Q) : string :=
  match c with
  | acidic => "Soil is acidic (pH " +:+ float_str x +:+ "). Apply lime to raise pH to 6.0-7.0 range for optimal nutrient availability."
  | alkaline => "Soil is alkaline (pH " +:+ float_str x +:+ "). Apply sulfur or organic matter to lower pH."
  | optimal => "pH level (" +:+ float_str x +:+ ") is optimal for most crops."
  end.

Definition nitrogen_text (float_str : Q -> string) (c : nutrient_class) (x : Q)
  : string :=
  match c with
  | deficient => "Low nitrogen levels (" +:+ float_str x +:+ " ppm). Apply nitrogen-rich fertilizer or compost."
  | excessive => "High nitrogen levels (" +:+ float_str x +:+ " ppm). Reduce nitrogen fertilization to prevent burning and runoff."
  | adequate => "Nitrogen levels (" +:+ float_str x +:+ " ppm) are adequate."
  end.

Definition phosphorus_text (float_str : Q -> string) (c : nutrient_class) (x : Q)
  : string :=
  match c with
  | deficient => "Low phosphorus levels (" +:+ float_str x +:+ " ppm). Apply phosphorus fertilizer for strong root development."
  | excessive => "High phosphorus levels (" +:+ float_str x +:+ " ppm). Avoid phosphorus fertilizers."
  | adequate => "Phosphorus levels (" +:+ float_str x +:+ " ppm) are sufficient."
  end.

Definition potassium_text (float_str : Q -> string) (c : nutrient_class) (x : Q)
  : string :=
  match c with
  | deficient => "Low potassium levels (" +:+ float_str x +:+ " ppm). Apply potassium fertilizer for plant health and disease resistance."
  | excessive => "High potassium levels (" +:+ float_str x +:+ " ppm). Reduce potassium fertilization."
  | adequate => "Potassium levels (" +:+ float_str x +:+ " ppm) are adequate."
  end.

(** The two pH actions, with a numeric dosage. *)
Definition lime_action (dosage : Z) : gmap string string :=
  action_dict "pH adjustment" "Apply agricultural lime" (lbs dosage) "high".

Definition sulfur_action (dosage : Z) : gmap string string :=
  action_dict "pH adjustment" "Apply elemental sulfur" (lbs dosage) "high".

(** The three fertilizer actions, with a numeric dosage. *)
Definition nitrogen_action (dosage : Z) : gmap string string :=
  action_dict "nitrogen" "Apply nitrogen fertilizer (21-0-0 or similar)"
    (lbs dosage) "medium".

Definition phosphorus_action (dosage : Z) : gmap string string :=
  action_dict "phosphorus" "Apply phosphorus fertilizer (0-46-0 or bone meal)"
    (lbs dosage) "medium".

Definition potassium_action (dosage : Z) : gmap string string :=
  action_dict "potassium" "Apply potassium fertilizer (0-0-60 or potash)"
    (lbs dosage) "medium".

(** What a run reports when the pH is acidic and the three nutrients are
    deficient: the four diagnoses, the overall priority and the four
    actions with their dosages, in the order pH, N, P, K. *)
Definition acidic_deficient_outcome (float_str : Q -> string) (t : SoilTest)
    (lime nitrogen phosphorus potassium : Z) (overall : priority) : Prop :=
  exists recs,
    generate_fertilizer_recommendations float_str t = Ok recs /\
    recs !! "ph_recommendation" =
      Some (VStr (ph_text float_str acidic (models.ph t))) /\
    recs !! "nitrogen_recommendation" =
      Some (VStr (nitrogen_text float_str deficient (models.nitrogen t))) /\
    recs !! "phosphorus_recommendation" =
      Some (VStr (phosphorus_text float_str deficient (models.phosphorus t))) /\
    recs !! "potassium_recommendation" =
      Some (VStr (potassium_text float_str deficient (models.potassium t))) /\
    recs !! "priority" = Some (VStr (priority_str overall)) /\
    recs !! "actions" =
      Some (VList [lime_action lime; nitrogen_action nitrogen;
                   phosphorus_action phosphorus; potassium_action potassium]).

(** ** Sample inputs *)

(** One admissible instance of the float formatter, used to run the engine
    on concrete inputs: numerator, slash, denominator. *)
Definition ratio_str (x : Q) : string :=
  pretty (Qnum x) +:+ "/" +:+ pretty (Z.pos (Qden x)).

(** [SoilTest(location, ph, nitrogen, phosphorus, potassium)] with the
    defaults of the constructor, the test date being the current day. *)
Definition soil_test (location : string) (ph nitrogen phosphorus potassium : Q)
    (today : string) : SoilTest :=
  {| models.id := None; models.location := location;
     models.latitude := None; models.longitude := None;
     models.ph := ph; models.nitrogen := nitrogen;
     models.phosphorus := phosphorus; models.potassium := potassium;
     models.notes := ""; models.test_date := today |}.

(** ** The actions for an excess *)

(** The three actions the engine emits for an excess of a nutrient; their
    amount is an instruction, not a dosage. *)
Definition nitrogen_reduce_action : gmap string string :=
  action_dict "nitrogen" "Reduce or skip nitrogen fertilization"
    "Monitor and test again in 6 months" "low".

Definition phosphorus_skip_action : gmap string string :=
  action_dict "phosphorus" "Skip phosphorus fertilization"
    "Use low or no-phosphorus fertilizers" "low".

Definition potassium_reduce_action : gmap string string :=
  action_dict "potassium" "Reduce potassium fertilization"
    "Monitor levels and retest in 12 months" "low".

(** ** Python values of any type, and the builtins the callers use *)

Module builtins.

(** A [float]: a finite value, an infinity or NaN.  A finite double is the
    rational it denotes; what is proved for every rational holds for every
    double. *)
Inductive float_value := Finite (x : Q) | PosInf | NegInf | NaN.

(** The values a decoded JSON document is made of. *)
#[warnings="-register-all"]
Inductive object :=
| ONone
| OBool (b : bool)
| OInt (n : Z)
| OFloat (x : float_value)
| OStr (s : string)
| OList (l : list object)
| ODict (items : list (string * object)).

Inductive exception :=
| AttributeError
| TypeError
| ValueError
| OverflowError
| KeyError (key : string).

(** A computation returns a value or throws an exception. *)
Inductive outcome (A : Type) :=
| Return (a : A)
| Throw (e : exception).
Arguments Return {A} a.
Arguments Throw {A} e.

#[export] Instance outcome_ret : MRet outcome := fun A a => Return a.
#[export] Instance outcome_bind : MBind outcome := fun A B k m =>
  match m with
  | Return a => k a
  | Throw e => Throw e
  end.

(** [try: body  except (ValueError, TypeError): handler]. *)
Definition except_ValueError_TypeError {A} (body handler : outcome A)
  : outcome A :=
  match body with
  | Throw ValueError | Throw TypeError => handler
  | _ => body
  end.

(** [x < c] and [x > c] for a float [x] and an integer literal [c]; every
    comparison with NaN is false. *)
Definition float_lt (x : float_value) (c : Q) : bool :=
  match x with
  | Finite q => py.lt q c
  | NegInf => true
  | PosInf | NaN => false
  end.

Definition float_gt (x : float_value) (c : Q) : bool :=
  match x with
  | Finite q => py.gt q c
  | PosInf => true
  | NegInf | NaN => false
  end.

(** Truth value of an object, as [not x] and [x or y] test it. *)
Definition truth (x : object) : bool :=
  match x with
  | ONone => false
  | OBool b => b
  | OInt n => negb (n =? 0)%Z
  | OFloat (Finite q) => negb (Qeq_bool q 0)
  | OFloat _ => true
  | OStr s => negb (bool_decide (s = ""))
  | OList l => negb (bool_decide (length l = 0%nat))
  | ODict items => negb (bool_decide (length items = 0%nat))
  end.

(** [x or y]. *)
Definition or_else (x y : object) : object := if truth x then x else y.

(** [d.get(k, default)], [d.get(k)] and [d[k]]. *)
Definition get_default (d : gmap string object) (k : string) (default : object)
  : object :=
  match d !! k with
  | Some v => v
  | None => default
  end.

Definition get (d : gmap string object) (k : string) : object :=
  get_default d k ONone.

Definition getitem (d : gmap string object) (k : string) : outcome object :=
  match d !! k with
  | Some v => Return v
  | None => Throw (KeyError k)
  end.

(** [x is not None]. *)
Definition is_not_none (x : object) : bool :=
  match x with ONone => false | _ => true end.

(** Strings stand for Python strings whose code points are below 256, one
    character per code point.  Among these, [str.isspace] holds for the
    controls 9-13 and 28-31, the space, U+0085 and U+00A0. *)
Definition isspace (c : Ascii.ascii) : bool :=
  let n := Ascii.nat_of_ascii c in
  ((9 <=? n) && (n <=? 13) || (28 <=? n) && (n <=? 32)
   || (n =? 133) || (n =? 160))%nat.

Fixpoint lstrip (s : string) : string :=
  match s with
  | String c rest => if isspace c then lstrip rest else s
  | EmptyString => EmptyString
  end.

Definition rstrip (s : string) : string :=
  String.rev (lstrip (String.rev s)).

(** [s.strip()]. *)
Definition strip (s : string) : string := rstrip (lstrip s).

(** [x.strip()] on any object: only strings have the method. *)
Definition method_strip (x : object) : outcome string :=
  match x with
  | OStr s => Return (strip s)
  | _ => Throw AttributeError
  end.

(** [float(n)] for an [int]: the nearest double, ties to even, and
    [OverflowError] when that is beyond the largest double. *)
Definition nearest_double (a : Z) : Z :=
  if (a <? 2 ^ 53)%Z then a
  else
    let e := (Z.log2 a - 52)%Z in
    let q := Z.shiftr a e in
    let r := (a - Z.shiftl q e)%Z in
    let half := Z.shiftl 1 (e - 1) in
    let q := if (r <? half)%Z then q
             else if (half <? r)%Z then (q + 1)%Z
             else if Z.even q then q else (q + 1)%Z in
    Z.shiftl q e.

Definition float_of_int (n : Z) : outcome float_value :=
  let m := nearest_double (Z.abs n) in
  if (2 ^ 1024 <=? m)%Z then Throw OverflowError
  else Return (Finite (inject_Z (Z.sgn n * m))).

Section Float.

(** [float(s)] for a string parses a float literal; the parser is a
    builtin, taken as a parameter: [None] is a literal it rejects. *)
Variable float_of_str : string -> option float_value.

(** [float(x)]. *)
Definition float (x : object) : outcome float_value :=
  match x with
  | OFloat f => Return f
  | OInt n => float_of_int n
  | OBool b => Return (Finite (if b then 1 else 0))
  | OStr s =>
      match float_of_str s with
      | Some f => Return f
      | None => Throw ValueError
      end
  | ONone | OList _ | ODict _ => Throw TypeError
  end.

End Float.

End builtins.


(** ** [utils.py]: validation of a request payload *)

Section Validation.

Import builtins.

Variable float_of_str : string -> option float_value.

(** The seven checks of [validate_soil_test_data], each taking the list of
    errors found so far and returning it, extended or not. *)
Definition check_location (data : gmap string object) (errors : list string)
  : outcome (list string) :=
  location ← method_strip (get_default data "location" (OStr ""));
  Return (if negb (truth (OStr location))
          then errors ++ ["Location is required"] else errors).

Definition check_ph (data : gmap string object) (errors : list string)
  : outcome (list string) :=
  except_ValueError_TypeError
    (ph ← float float_of_str (get_default data "ph" (OInt 0));
     Return (if float_lt ph 0 || float_gt ph 14
             then errors ++ ["pH must be between 0 and 14"] else errors))
    (Return (errors ++ ["pH must be a valid number"])).

Definition check_nitrogen (data : gmap string object) (errors : list string)
  : outcome (list string) :=
  except_ValueError_TypeError
    (nitrogen ← float float_of_str (get_default data "nitrogen" (OInt 0));
     Return (if float_lt nitrogen 0
             then errors ++ ["Nitrogen must be a positive number"]
             else errors))
    (Return (errors ++ ["Nitrogen must be a valid number"])).

Definition check_phosphorus (data : gmap string object) (errors : list string)
  : outcome (list string) :=
  except_ValueError_TypeError
    (phosphorus ← float float_of_str (get_default data "phosphorus" (OInt 0));
     Return (if float_lt phosphorus 0
             then errors ++ ["Phosphorus must be a positive number"]
             else errors))
    (Return (errors ++ ["Phosphorus must be a valid number"])).

Definition check_potassium (data : gmap string object) (errors : list string)
  : outcome (list string) :=
  except_ValueError_TypeError
    (potassium ← float float_of_str (get_default data "potassium" (OInt 0));
     Return (if float_lt potassium 0
             then errors ++ ["Potassium must be a positive number"]
             else errors))
    (Return (errors ++ ["Potassium must be a valid number"])).

Definition check_latitude (data : gmap string object) (errors : list string)
  : outcome (list string) :=
  if is_not_none (get data "latitude") then
    except_ValueError_TypeError
      (lat ← (v ← getitem data "latitude"; float float_of_str v);
       Return (if float_lt lat (-90) || float_gt lat 90
               then errors ++ ["Latitude must be between -90 and 90"]
               else errors))
      (Return (errors ++ ["Latitude must be a valid number"]))
  else Return errors.

Definition check_longitude (data : gmap string object) (errors : list string)
  : outcome (list string) :=
  if is_not_none (get data "longitude") then
    except_ValueError_TypeError
      (lng ← (v ← getitem data "longitude"; float float_of_str v);
       Return (if float_lt lng (-180) || float_gt lng 180
               then errors ++ ["Longitude must be between -180 and 180"]
               else errors))
      (Return (errors ++ ["Longitude must be a valid number"]))
  else Return errors.

Definition validate_soil_test_data (data : gmap string object)
  : outcome (list string) :=
  let errors : list string := [] in
  errors ← check_location data errors;
  errors ← check_ph data errors;
  errors ← check_nitrogen data errors;
  errors ← check_phosphorus data errors;
  errors ← check_potassium data errors;
  errors ← check_latitude data errors;
  errors ← check_longitude data errors;
  Return errors.

End Validation.

(** ** [models.py]: a [SoilTest] instance with attributes of any type *)

(** [SoilTest] declares no types that Python would enforce: an instance
    holds whatever objects it was built from.  [instance.attrs] is such an
    instance; [instance.of_soil_test] is the instance for a record whose
    attributes have the declared types. *)
Module instance.

Import builtins.

Record attrs := {
  id : object;
  location : object;
  latitude : object;
  longitude : object;
  ph : object;
  nitrogen : object;
  phosphorus : object;
  potassium : object;
  notes : object;
  test_date : object
}.

(** [SoilTest.__init__]; [today] is [datetime.now().strftime('%Y-%m-%d')]. *)
Definition init (today : string)
    (location ph nitrogen phosphorus potassium latitude longitude notes
       test_date id : object) : attrs :=
  {| id := id; location := location; latitude := latitude;
     longitude := longitude; ph := ph; nitrogen := nitrogen;
     phosphorus := phosphorus; potassium := potassium; notes := notes;
     test_date := or_else test_date (OStr today) |}.

(** [SoilTest.to_dict]. *)
Definition to_dict (self : attrs) : gmap string object :=
  list_to_map [("id", id self); ("location", location self);
               ("latitude", latitude self); ("longitude", longitude self);
               ("ph", ph self); ("nitrogen", nitrogen self);
               ("phosphorus", phosphorus self); ("potassium", potassium self);
               ("notes", notes self); ("testDate", test_date self)].

(** [SoilTest.from_dict]: the arguments are evaluated in the order they
    are written, so the first missing required key is the one reported. *)
Definition from_dict (today : string) (data : gmap string object)
  : outcome attrs :=
  let id := get data "id" in
  location ← getitem data "location";
  let latitude := get data "latitude" in
  let longitude := get data "longitude" in
  ph ← getitem data "ph";
  nitrogen ← getitem data "nitrogen";
  phosphorus ← getitem data "phosphorus";
  potassium ← getitem data "potassium";
  let notes := get_default data "notes" (OStr "") in
  let test_date := get data "testDate" in
  Return (init today location ph nitrogen phosphorus potassium latitude
            longitude notes test_date id).

Definition of_option {A} (f : A -> object) (x : option A) : object :=
  match x with
  | Some a => f a
  | None => ONone
  end.

Definition of_soil_test (t : SoilTest) : attrs :=
  {| id := of_option OInt (models.id t);
     location := OStr (models.location t);
     latitude := of_option (fun x => OFloat (Finite x)) (models.latitude t);
     longitude := of_option (fun x => OFloat (Finite x)) (models.longitude t);
     ph := OFloat (Finite (models.ph t));
     nitrogen := OFloat (Finite (models.nitrogen t));
     phosphorus := OFloat (Finite (models.phosphorus t));
     potassium := OFloat (Finite (models.potassium t));
     notes := OStr (models.notes t);
     test_date := OStr (models.test_date t) |}.

End instance.

(** ** [app.py]: the instance built from a validated payload *)

Section Create.

Import builtins.

Variable float_of_str : string -> option float_value.

(** The [SoilTest(...)] expression of [create_soil_test]. *)
Definition create_soil_test_instance (today : string)
    (data : gmap string object) : outcome instance.attrs :=
  location ← getitem data "location";
  let latitude := get data "latitude" in
  let longitude := get data "longitude" in
  ph ← (v ← getitem data "ph"; float float_of_str v);
  nitrogen ← (v ← getitem data "nitrogen"; float float_of_str v);
  phosphorus ← (v ← getitem data "phosphorus"; float float_of_str v);
  potassium ← (v ← getitem data "potassium"; float float_of_str v);
  let notes := get_default data "notes" (OStr "") in
  let test_date := get_default data "testDate" (OStr today) in
  Return (instance.init today location (OFloat ph) (OFloat nitrogen)
            (OFloat phosphorus) (OFloat potassium) latitude longitude notes
            test_date ONone).

End Create.

(** ** What the validator accepts *)

Section Acceptance.
Import builtins.
Variable float_of_str : string -> option float_value.

(** What the range tests of the validator let through: a comparison with
    NaN is false, so NaN passes every test; only the lower end of a
    nutrient is tested, so plus infinity passes it. *)
Definition within_or_nan (lo hi : Q) (f : float_value) : Prop :=
  f = NaN \/ exists q, f = Finite q /\ lo <= q /\ q <= hi.

Definition not_negative (f : float_value) : Prop :=
  f = NaN \/ f = PosInf \/ exists q, f = Finite q /\ 0 <= q.

(** A payload the validator has nothing to say against.  A measurement
    that is absent counts as 0; an absent or null coordinate is skipped. *)
Definition accepted (data : gmap string object) : Prop :=
  (exists s, data !! "location" = Some (OStr s) /\ strip s <> "") /\
  (exists f, float float_of_str (get_default data "ph" (OInt 0)) = Return f /\
             within_or_nan 0 14 f) /\
  (exists f, float float_of_str (get_default data "nitrogen" (OInt 0)) = Return f /\
             not_negative f) /\
  (exists f, float float_of_str (get_default data "phosphorus" (OInt 0)) = Return f /\
             not_negative f) /\
  (exists f, float float_of_str (get_default data "potassium" (OInt 0)) = Return f /\
             not_negative f) /\
  (get data "latitude" = ONone \/
   exists f, float float_of_str (get data "latitude") = Return f /\
             within_or_nan (-90) 90 f) /\
  (get data "longitude" = ONone \/
   exists f, float float_of_str (get data "longitude") = Return f /\
             within_or_nan (-180) 180 f).
End Acceptance.

(** ** [app.py]: the CSV export *)

Section CsvExport.

Variable float_str : Q -> string.

(** [f"{x or ''}"] for an optional float: [None] and zero are false. *)
Definition float_or_empty (x : option Q) : string :=
  match x with
  | Some q => if Qeq_bool q 0 then "" else float_str q
  | None => ""
  end.

(** [f"{test.id}"]. *)
Definition id_str (id : option Z) : string :=
  match id with
  | Some n => int_str n
  | None => "None"
  end.

(** The line of one test in [export_soil_tests]. *)
Definition csv_line (test : SoilTest) : string :=
  id_str (models.id test) +:+ "," +:+ models.location test +:+ "," +:+
  float_or_empty (models.latitude test) +:+ "," +:+
  float_or_empty (models.longitude test) +:+ "," +:+
  float_str (models.ph test) +:+ "," +:+
  float_str (models.nitrogen test) +:+ "," +:+
  float_str (models.phosphorus test) +:+ "," +:+
  float_str (models.potassium test) +:+ "," +:+
  models.test_date test +:+ "," +:+
  String.String (Ascii.ascii_of_nat 34) (models.notes test)
    +:+ String.String (Ascii.ascii_of_nat 34) "".

(** The list [csv_lines] of [export_soil_tests]. *)
Definition csv_lines (tests : list SoilTest) : list string :=
  ["ID,Location,Latitude,Longitude,pH,Nitrogen (ppm),Phosphorus (ppm),Potassium (ppm),Test Date,Notes"]
  ++ (csv_line <$> tests).

(** ['\n'.join(csv_lines)]. *)
Definition csv_content (tests : list SoilTest) : string :=
  String.concat (String.String (Ascii.ascii_of_nat 10) "") (csv_lines tests).

End CsvExport.


(** ** Sample payloads *)

(** An instance of the literal parser that knows no literal; it is used on
    payloads whose measurements are numbers, which never reach it. *)
Definition no_literals (s : string) : option builtins.float_value := None.

Definition complete_payload : gmap string builtins.object :=
  list_to_map
    [("location", builtins.OStr "North field");
     ("ph", builtins.OFloat (builtins.Finite 6.5));
     ("nitrogen", builtins.OInt 30);
     ("phosphorus", builtins.OFloat (builtins.Finite 30));
     ("potassium", builtins.OInt 200);
     ("latitude", builtins.OFloat (builtins.Finite 27.7));
     ("notes", builtins.OStr "after rain")].

Definition location_only_payload : gmap string builtins.object :=
  list_to_map [("location", builtins.OStr "North field")].

Definition null_location_payload : gmap string builtins.object :=
  list_to_map
    [("location", builtins.ONone);
     ("ph", builtins.OFloat (builtins.Finite 6.5))].

(** ** The engine and the score on floats with their special values *)

(** The attributes [ph], [nitrogen], [phosphorus] and [potassium] are
    annotated [float], and [app.py] builds them with [float(...)].  A float
    is a finite value, minus zero, an infinity or NaN.  The engine compares
    a measurement with literals and prints it in its messages; this module
    repeats the engine and the score on such floats, so that what Python
    does with minus zero (equal to zero, printed differently), with the
    infinities and with NaN (every comparison false) can be stated.  On
    finite floats the module agrees with the embedding over [Q] above. *)
Module ieee.

(** [Finite x] is the float denoting the rational [x], plus zero when [x]
    is zero; [NegZero] is [-0.0]. *)
Inductive double := Finite (x : Q) | NegZero | PosInf | NegInf | NaN.

(** [x < c] and [x > c] for a float [x] and a literal [c]. *)
Definition lt (x : double) (c : Q) : bool :=
  match x with
  | Finite q => py.lt q c
  | NegZero => py.lt 0 c
  | NegInf => true
  | PosInf | NaN => false
  end.

Definition gt (x : double) (c : Q) : bool :=
  match x with
  | Finite q => py.gt q c
  | NegZero => py.gt 0 c
  | PosInf => true
  | NegInf | NaN => false
  end.

(** The chained comparison [lo <= x <= hi], that is [lo <= x and x <= hi]. *)
Definition between (lo : Q) (x : double) (hi : Q) : bool :=
  match x with
  | Finite q => py.le lo q && py.le q hi
  | NegZero => py.le lo 0 && py.le 0 hi
  | PosInf | NegInf | NaN => false
  end.

(** [x == y]: the two zeros are equal, NaN is equal to nothing. *)
Definition eqb (x y : double) : bool :=
  match x, y with
  | Finite p, Finite q => Qeq_bool p q
  | Finite p, NegZero => Qeq_bool p 0
  | NegZero, Finite q => Qeq_bool 0 q
  | NegZero, NegZero => true
  | PosInf, PosInf => true
  | NegInf, NegInf => true
  | _, _ => false
  end.

(** The text of a float interpolated in an f-string, [repr(x)].  The
    digits of a finite float other than a zero are the builtin's business,
    the parameter [float_str]. *)
Definition repr (float_str : Q -> string) (x : double) : string :=
  match x with
  | Finite q => if Qeq_bool q 0 then "0.0" else float_str q
  | NegZero => "-0.0"
  | PosInf => "inf"
  | NegInf => "-inf"
  | NaN => "nan"
  end.

(** A [SoilTest] instance whose four measurements are floats; the engine
    and the score never read the other attributes, which are any objects. *)
Record SoilTest := {
  id : builtins.object;
  location : builtins.object;
  latitude : builtins.object;
  longitude : builtins.object;
  ph : double;
  nitrogen : double;
  phosphorus : double;
  potassium : double;
  notes : builtins.object;
  test_date : builtins.object
}.

Definition calculate_lime_requirement (ph : double) : Z :=
  if lt ph 5.0 then 15
  else if lt ph 5.5 then 12
  else if lt ph 6.0 then 8
  else 5.

Definition calculate_sulfur_requirement (ph : double) : Z :=
  if gt ph 8.0 then 10
  else if gt ph 7.5 then 6
  else 3.

Definition calculate_nitrogen_requirement (nitrogen : double) : Z :=
  if lt nitrogen 10 then 4
  else if lt nitrogen 20 then 2
  else 1.

Definition calculate_phosphorus_requirement (phosphorus : double) : Z :=
  if lt phosphorus 5 then 3
  else if lt phosphorus 15 then 2
  else 1.

Definition calculate_potassium_requirement (potassium : double) : Z :=
  if lt potassium 50 then 4
  else if lt potassium 100 then 3
  else 1.

Section Engine.

Variable float_str : Q -> string.

Definition ph_analysis (soil_test : SoilTest) (st : store) : store :=
  let '(recommendations, actions) := st in
  let ph := ph soil_test in
  if lt ph 6.0 then
    let recommendations :=
      <["ph_recommendation" := VStr ("Soil is acidic (pH " +:+ repr float_str ph +:+ "). Apply lime to raise pH to 6.0-7.0 range for optimal nutrient availability.")]> recommendations in
    let actions := actions ++
      [action_dict "pH adjustment" "Apply agricultural lime"
         (int_str (calculate_lime_requirement ph) +:+ " lbs per 1000 sq ft")
         "high"] in
    (<["priority" := VStr "high"]> recommendations, actions)
  else if gt ph 7.5 then
    let recommendations :=
      <["ph_recommendation" := VStr ("Soil is alkaline (pH " +:+ repr float_str ph +:+ "). Apply sulfur or organic matter to lower pH.")]> recommendations in
    let actions := actions ++
      [action_dict "pH adjustment" "Apply elemental sulfur"
         (int_str (calculate_sulfur_requirement ph) +:+ " lbs per 1000 sq ft")
         "high"] in
    (<["priority" := VStr "high"]> recommendations, actions)
  else
    (<["ph_recommendation" := VStr ("pH level (" +:+ repr float_str ph +:+ ") is optimal for most crops.")]> recommendations,
     actions).

Definition nitrogen_analysis (soil_test : SoilTest) (st : store) : store :=
  let '(recommendations, actions) := st in
  let nitrogen := nitrogen soil_test in
  if lt nitrogen 20 then
    (<["nitrogen_recommendation" := VStr ("Low nitrogen levels (" +:+ repr float_str nitrogen +:+ " ppm). Apply nitrogen-rich fertilizer or compost.")]> recommendations,
     actions ++
      [action_dict "nitrogen" "Apply nitrogen fertilizer (21-0-0 or similar)"
         (int_str (calculate_nitrogen_requirement nitrogen) +:+ " lbs per 1000 sq ft")
         "medium"])
  else if gt nitrogen 50 then
    (<["nitrogen_recommendation" := VStr ("High nitrogen levels (" +:+ repr float_str nitrogen +:+ " ppm). Reduce nitrogen fertilization to prevent burning and runoff.")]> recommendations,
     actions ++
      [action_dict "nitrogen" "Reduce or skip nitrogen fertilization"
         "Monitor and test again in 6 months" "low"])
  else
    (<["nitrogen_recommendation" := VStr ("Nitrogen levels (" +:+ repr float_str nitrogen +:+ " ppm) are adequate.")]> recommendations,
     actions).

Definition phosphorus_analysis (soil_test : SoilTest) (st : store) : store :=
  let '(recommendations, actions) := st in
  let phosphorus := phosphorus soil_test in
  if lt phosphorus 15 then
    (<["phosphorus_recommendation" := VStr ("Low phosphorus levels (" +:+ repr float_str phosphorus +:+ " ppm). Apply phosphorus fertilizer for strong root development.")]> recommendations,
     actions ++
      [action_dict "phosphorus" "Apply phosphorus fertilizer (0-46-0 or bone meal)"
         (int_str (calculate_phosphorus_requirement phosphorus) +:+ " lbs per 1000 sq ft")
         "medium"])
  else if gt phosphorus 50 then
    (<["phosphorus_recommendation" := VStr ("High phosphorus levels (" +:+ repr float_str phosphorus +:+ " ppm). Avoid phosphorus fertilizers.")]> recommendations,
     actions ++
      [action_dict "phosphorus" "Skip phosphorus fertilization"
         "Use low or no-phosphorus fertilizers" "low"])
  else
    (<["phosphorus_recommendation" := VStr ("Phosphorus levels (" +:+ repr float_str phosphorus +:+ " ppm) are sufficient.")]> recommendations,
     actions).

Definition potassium_analysis (soil_test : SoilTest) (st : store) : store :=
  let '(recommendations, actions) := st in
  let potassium := potassium soil_test in
  if lt potassium 100 then
    (<["potassium_recommendation" := VStr ("Low potassium levels (" +:+ repr float_str potassium +:+ " ppm). Apply potassium fertilizer for plant health and disease resistance.")]> recommendations,
     actions ++
      [action_dict "potassium" "Apply potassium fertilizer (0-0-60 or potash)"
         (int_str (calculate_potassium_requirement potassium) +:+ " lbs per 1000 sq ft")
         "medium"])
  else if gt potassium 300 then
    (<["potassium_recommendation" := VStr ("High potassium levels (" +:+ repr float_str potassium +:+ " ppm). Reduce potassium fertilization.")]> recommendations,
     actions ++
      [action_dict "potassium" "Reduce potassium fertilization"
         "Monitor levels and retest in 12 months" "low"])
  else
    (<["potassium_recommendation" := VStr ("Potassium levels (" +:+ repr float_str potassium +:+ " ppm) are adequate.")]> recommendations,
     actions).

(** The overall verdict and the roll-up do not look at the measurements:
    they are [overall_recommendation], as above. *)
Definition generate_fertilizer_recommendations (soil_test : SoilTest)
  : result (gmap string value) :=
  let recommendations := initial_recommendations in
  let actions := [] in
  let st := ph_analysis soil_test (recommendations, actions) in
  let st := nitrogen_analysis soil_test st in
  let st := phosphorus_analysis soil_test st in
  let st := potassium_analysis soil_test st in
  overall_recommendation st.

(** The store after the four analyses, and the actions they append. *)
Definition analyses (soil_test : SoilTest) : store :=
  potassium_analysis soil_test
    (phosphorus_analysis soil_test
       (nitrogen_analysis soil_test
          (ph_analysis soil_test (initial_recommendations, [])))).

Definition emitted (soil_test : SoilTest) : list (gmap string string) :=
  appended (ph_analysis soil_test) ++
  appended (nitrogen_analysis soil_test) ++
  appended (phosphorus_analysis soil_test) ++
  appended (potassium_analysis soil_test).

End Engine.

(** The four scoring steps and the score; the running score is computed
    exactly, as above. *)
Definition ph_score (soil_test : SoilTest) (health_score : Q) : Q :=
  let ph := ph soil_test in
  if between 6.0 ph 7.0 then health_score + 1
  else if between 5.5 ph 7.5 then health_score + 0.7
  else if between 5.0 ph 8.0 then health_score + 0.4
  else health_score.

Definition nitrogen_score (soil_test : SoilTest) (health_score : Q) : Q :=
  let nitrogen := nitrogen soil_test in
  if between 20 nitrogen 50 then health_score + 1
  else if between 15 nitrogen 60 then health_score + 0.7
  else if between 10 nitrogen 80 then health_score + 0.4
  else health_score.

Definition phosphorus_score (soil_test : SoilTest) (health_score : Q) : Q :=
  let phosphorus := phosphorus soil_test in
  if between 15 phosphorus 50 then health_score + 1
  else if between 10 phosphorus 60 then health_score + 0.7
  else if between 5 phosphorus 80 then health_score + 0.4
  else health_score.

Definition potassium_score (soil_test : SoilTest) (health_score : Q) : Q :=
  let potassium := potassium soil_test in
  if between 100 potassium 300 then health_score + 1
  else if between 75 potassium 400 then health_score + 0.7
  else if between 50 potassium 500 then health_score + 0.4
  else health_score.

Definition analyze_soil_health (soil_test : SoilTest) : gmap string value :=
  let health_score : Q := 0 in
  let total_factors : Q := 4 in
  let health_score := ph_score soil_test health_score in
  let health_score := nitrogen_score soil_test health_score in
  let health_score := phosphorus_score soil_test health_score in
  let health_score := potassium_score soil_test health_score in
  let health_percentage := (health_score / total_factors) * 100 in
  let '(health_status, health_description) := health_verdict health_percentage in
  list_to_map [("score", VNum (round1 health_percentage));
               ("status", VStr health_status);
               ("description", VStr health_description)].

(** The instance for a record of the embedding over [Q]. *)
Definition of_soil_test (t : models.SoilTest) : SoilTest :=
  {| id := instance.of_option builtins.OInt (models.id t);
     location := builtins.OStr (models.location t);
     latitude :=
       instance.of_option (fun x => builtins.OFloat (builtins.Finite x))
         (models.latitude t);
     longitude :=
       instance.of_option (fun x => builtins.OFloat (builtins.Finite x))
         (models.longitude t);
     ph := Finite (models.ph t);
     nitrogen := Finite (models.nitrogen t);
     phosphorus := Finite (models.phosphorus t);
     potassium := Finite (models.potassium t);
     notes := builtins.OStr (models.notes t);
     test_date := builtins.OStr (models.test_date t) |}.

(** Two instances agree on the four measurements when Python finds these
    equal, [a.ph == b.ph] and so on. *)
Definition agree (a b : SoilTest) : Prop :=
  eqb (ph a) (ph b) = true /\
  eqb (nitrogen a) (nitrogen b) = true /\
  eqb (phosphorus a) (phosphorus b) = true /\
  eqb (potassium a) (potassium b) = true.

(** A measurement for which an analysis takes neither branch: a number in
    the closed range, or NaN. *)
Definition in_range_or_nan (lo hi : Q) (x : double) : Prop :=
  match x with
  | Finite q => lo <= q /\ q <= hi
  | NegZero => lo <= 0 /\ 0 <= hi
  | NaN => True
  | PosInf | NegInf => False
  end.

(** The bands of the score are intervals of positive numbers: a float that
    is infinite or NaN is in none of them, as [-1] is. *)
Definition scored_as (x : double) : Q :=
  match x with
  | Finite q => q
  | NegZero => 0
  | PosInf | NegInf | NaN => -1
  end.

Definition scored_as_test (t : SoilTest) : models.SoilTest :=
  soil_test "" (scored_as (ph t)) (scored_as (nitrogen t))
    (scored_as (phosphorus t)) (scored_as (potassium t)) "".

(** An instance with a NaN among its measurements. *)
Definition has_nan (t : SoilTest) : Prop :=
  ph t = NaN \/ nitrogen t = NaN \/ phosphorus t = NaN \/ potassium t = NaN.

(** [SoilTest(location, ph, nitrogen, phosphorus, potassium)] with the
    defaults of the constructor, the test date being the current day. *)
Definition soil_test (location : string)
    (ph nitrogen phosphorus potassium : double) (today : string) : SoilTest :=
  {| id := builtins.ONone; location := builtins.OStr location;
     latitude := builtins.ONone; longitude := builtins.ONone;
     ph := ph; nitrogen := nitrogen; phosphorus := phosphorus;
     potassium := potassium; notes := builtins.OStr "";
     test_date := builtins.OStr today |}.

End ieee.

(** Two tests that differ in the sign of a zero nitrogen reading only. *)
Definition zero_nitrogen_test : ieee.SoilTest :=
  ieee.soil_test "Field" (ieee.Finite 6.5) (ieee.Finite 0) (ieee.Finite 30)
    (ieee.Finite 200) "2024-01-01".

Definition minus_zero_nitrogen_test : ieee.SoilTest :=
  ieee.soil_test "Field" (ieee.Finite 6.5) ieee.NegZero (ieee.Finite 30)
    (ieee.Finite 200) "2024-01-01".

(** Two tests with the same measurements, special values among them, and
    nothing else in common. *)
Definition field_test : ieee.SoilTest :=
  ieee.soil_test "North field" (ieee.Finite 5.2) ieee.NegZero ieee.PosInf
    ieee.NaN "2024-01-01".

Definition greenhouse_test : ieee.SoilTest :=
  {| ieee.id := builtins.OInt 7;
     ieee.location := builtins.OStr "Greenhouse";
     ieee.latitude := builtins.OFloat (builtins.Finite 27.7);
     ieee.longitude := builtins.OFloat (builtins.Finite 85.3);
     ieee.ph := ieee.Finite 5.2; ieee.nitrogen := ieee.NegZero;
     ieee.phosphorus := ieee.PosInf; ieee.potassium := ieee.NaN;
     ieee.notes := builtins.OStr "after rain";
     ieee.test_date := builtins.OStr "2025-06-30" |}.

(** * Properties *)

(** ** Comparisons *)

Lemma lt_true (x y : Q) : lt x y = true <-> x < y.
Proof.
  unfold lt. rewrite negb_true_iff, <- not_true_iff_false, Qle_bool_iff.
  split; [apply Qnot_le_lt | apply Qlt_not_le].
Qed.

Lemma lt_false (x y : Q) : lt x y = false <-> y <= x.
Proof. unfold lt. by rewrite negb_false_iff, Qle_bool_iff. Qed.

Lemma le_true (x y : Q) : le x y = true <-> x <= y.
Proof. apply Qle_bool_iff. Qed.

Lemma le_false (x y : Q) : le x y = false <-> y < x.
Proof.
  unfold le. rewrite <- not_true_iff_false, Qle_bool_iff.
  split; [apply Qnot_le_lt | apply Qlt_not_le].
Qed.

(** [cmp_cases] splits on every comparison the goal branches on and turns
    the outcomes into facts about the order of [Q]. *)
Ltac cmp_facts :=
  repeat match goal with
  | H : lt _ _ = true |- _ => apply lt_true in H
  | H : lt _ _ = false |- _ => apply lt_false in H
  | H : le _ _ = true |- _ => apply le_true in H
  | H : le _ _ = false |- _ => apply le_false in H
  end.

Ltac cmp_cases :=
  unfold gt, ge;
  repeat match goal with
  | |- context [if lt ?x ?y then _ else _] => destruct (lt x y) eqn:?
  | |- context [if le ?x ?y then _ else _] => destruct (le x y) eqn:?
  | |- context [le ?x ?y && _] => destruct (le x y) eqn:?; simpl andb
  end;
  cmp_facts.

(** ** Action dictionaries *)

Lemma action_dict_amount ty ac am pr : action_dict ty ac am pr !! "amount" = Some am.
Proof. reflexivity. Qed.

Lemma priority_of_str_inv s p : priority_of_str s = Some p -> s = priority_str p.
Proof.
  unfold priority_of_str. repeat case_bool_decide; intros [= <-]; done.
Qed.

Lemma priority_str_inj p q : priority_str p = priority_str q -> p = q.
Proof. by destruct p, q. Qed.

(** ** The priority roll-up *)

Lemma bool_decide_elem_of_cons (p q : priority) (ps : list priority) :
  bool_decide (p ∈ q :: ps) = bool_decide (p = q) || bool_decide (p ∈ ps).
Proof.
  rewrite <- bool_decide_or. apply bool_decide_ext, elem_of_cons.
Qed.

Lemma max_severity_cases ps :
  max_severity ps =
    if bool_decide (high ∈ ps) then high
    else if bool_decide (medium ∈ ps) then medium
    else low.
Proof.
  induction ps as [|p ps IH]; [done|].
  simpl. rewrite IH, !bool_decide_elem_of_cons. clear IH.
  by destruct p, (bool_decide (high ∈ ps)), (bool_decide (medium ∈ ps)).
Qed.

Lemma select_priority_truthy p acts ps :
  mapM action_priority acts = Some ps ->
  exists kept, select_priority (priority_str p) acts = Ok kept /\
               truthy kept = bool_decide (p ∈ ps).
Proof.
  revert ps. induction acts as [|a acts IH]; intros ps Hps.
  - injection Hps as <-. by exists [].
  - simpl in Hps.
    destruct (action_priority a) as [q|] eqn:Hq; [|done].
    destruct (mapM action_priority acts) as [qs|] eqn:Hqs; [|done].
    injection Hps as <-.
    destruct (IH qs eq_refl) as (kept & Hkept & Htruthy).
    unfold action_priority in Hq.
    destruct (a !! "priority") as [v|] eqn:Hv; [|done].
    apply priority_of_str_inv in Hq. subst v.
    simpl. unfold getitem. rewrite Hv. simpl. rewrite Hkept. simpl.
    eexists. split; [done|].
    rewrite bool_decide_elem_of_cons, <- Htruthy.
    destruct (decide (p = q)) as [->|Hne].
    + by rewrite !bool_decide_eq_true_2.
    + rewrite !bool_decide_eq_false_2; [done|done|].
      intros Heq. by apply Hne, priority_str_inj.
Qed.

Lemma overall_recommendation_max r acts ps :
  mapM action_priority acts = Some ps ->
  overall_recommendation (r, acts) =
    Ok (<["actions" := VList acts]>
          (<["priority" := VStr (priority_str (max_severity ps))]>
             (<["overall" := VStr (overall_text (max_severity ps))]> r))).
Proof.
  intros Hps. unfold overall_recommendation.
  destruct (select_priority_truthy high acts ps Hps) as (hs & Hhs & Hh).
  destruct (select_priority_truthy medium acts ps Hps) as (ms & Hms & Hm).
  simpl in Hhs, Hms. rewrite Hhs. simpl. rewrite Hms. simpl.
  rewrite Hh, Hm, max_severity_cases.
  by repeat case_bool_decide.
Qed.

(** ** Selecting the actions of one type *)

Lemma actions_of_type_app ty (l1 l2 : list (gmap string string)) :
  actions_of_type ty (l1 ++ l2) = actions_of_type ty l1 ++ actions_of_type ty l2.
Proof. apply filter_app. Qed.

Lemma actions_of_type_all ty (l : list (gmap string string)) :
  Forall (fun a => a !! "type" = Some ty) l -> actions_of_type ty l = l.
Proof.
  unfold actions_of_type. induction 1 as [|a l Ha _ IH]; [done|].
  by rewrite filter_cons_True, IH.
Qed.

Lemma actions_of_type_none ty ty' (l : list (gmap string string)) :
  Forall (fun a => a !! "type" = Some ty') l -> ty ≠ ty' ->
  actions_of_type ty l = [].
Proof.
  unfold actions_of_type. intros Hl Hne.
  induction Hl as [|a l Ha _ IH]; [done|].
  rewrite filter_cons_False; [done|]. rewrite Ha. congruence.
Qed.

(** ** Writing under a key that is already there *)

Lemma dom_insert_present {V} (m : gmap string V) (k : string) (v : V) :
  k ∈ dom m -> dom (<[k:=v]> m) = dom m.
Proof. intros Hk. apply dom_insert_lookup_L. by apply elem_of_dom. Qed.

Lemma dom_insert_present2 {V} (m : gmap string V) (k1 k2 : string) (v1 v2 : V) :
  k1 ∈ dom m -> k2 ∈ dom m -> dom (<[k1:=v1]> (<[k2:=v2]> m)) = dom m.
Proof.
  intros Hk1 Hk2. rewrite dom_insert_present; [by apply dom_insert_present|].
  by rewrite dom_insert_present.
Qed.

(** ** The four analyses, step by step *)

Ltac unfold_analyses :=
  unfold ph_analysis, nitrogen_analysis, phosphorus_analysis,
    potassium_analysis;
  cbv beta iota zeta.

Section EngineFacts.

Variable float_str : Q -> string.
Implicit Types (t : SoilTest) (st : store) (k : string).

(** Each analysis only appends to the actions list. *)
Lemma ph_analysis_actions t st :
  (ph_analysis float_str t st).2 = st.2 ++ appended (ph_analysis float_str t).
Proof.
  destruct st as [r a]. unfold appended. unfold_analyses.
  cmp_cases; simpl; by rewrite ?app_nil_r.
Qed.

Lemma nitrogen_analysis_actions t st :
  (nitrogen_analysis float_str t st).2 =
  st.2 ++ appended (nitrogen_analysis float_str t).
Proof.
  destruct st as [r a]. unfold appended. unfold_analyses.
  cmp_cases; simpl; by rewrite ?app_nil_r.
Qed.

Lemma phosphorus_analysis_actions t st :
  (phosphorus_analysis float_str t st).2 =
  st.2 ++ appended (phosphorus_analysis float_str t).
Proof.
  destruct st as [r a]. unfold appended. unfold_analyses.
  cmp_cases; simpl; by rewrite ?app_nil_r.
Qed.

Lemma potassium_analysis_actions t st :
  (potassium_analysis float_str t st).2 =
  st.2 ++ appended (potassium_analysis float_str t).
Proof.
  destruct st as [r a]. unfold appended. unfold_analyses.
  cmp_cases; simpl; by rewrite ?app_nil_r.
Qed.

(** Each analysis writes its own message; only the pH analysis also
    touches ['priority']. *)
Lemma ph_analysis_lookup t st k :
  k ≠ "ph_recommendation" -> k ≠ "priority" ->
  (ph_analysis float_str t st).1 !! k = st.1 !! k.
Proof.
  intros. destruct st as [r a]. unfold_analyses.
  cmp_cases; simpl; by rewrite ?lookup_insert_ne.
Qed.

Lemma nitrogen_analysis_lookup t st k :
  k ≠ "nitrogen_recommendation" ->
  (nitrogen_analysis float_str t st).1 !! k = st.1 !! k.
Proof.
  intros. destruct st as [r a]. unfold_analyses.
  cmp_cases; simpl; by rewrite ?lookup_insert_ne.
Qed.

Lemma phosphorus_analysis_lookup t st k :
  k ≠ "phosphorus_recommendation" ->
  (phosphorus_analysis float_str t st).1 !! k = st.1 !! k.
Proof.
  intros. destruct st as [r a]. unfold_analyses.
  cmp_cases; simpl; by rewrite ?lookup_insert_ne.
Qed.

Lemma potassium_analysis_lookup t st k :
  k ≠ "potassium_recommendation" ->
  (potassium_analysis float_str t st).1 !! k = st.1 !! k.
Proof.
  intros. destruct st as [r a]. unfold_analyses.
  cmp_cases; simpl; by rewrite ?lookup_insert_ne.
Qed.

(** No analysis adds a key to a store that has the seven keys. *)
Lemma initial_recommendations_dom :
  dom initial_recommendations = list_to_set recommendation_keys.
Proof. unfold initial_recommendations. by rewrite dom_list_to_map_L. Qed.

Lemma ph_analysis_dom t st :
  "ph_recommendation" ∈ dom st.1 -> "priority" ∈ dom st.1 ->
  dom (ph_analysis float_str t st).1 = dom st.1.
Proof.
  destruct st as [r a]. simpl. intros Hmsg Hprio. unfold_analyses.
  cmp_cases; simpl;
    by rewrite ?dom_insert_present2, ?dom_insert_present by done.
Qed.

Lemma nitrogen_analysis_dom t st :
  "nitrogen_recommendation" ∈ dom st.1 ->
  dom (nitrogen_analysis float_str t st).1 = dom st.1.
Proof.
  destruct st as [r a]. simpl. intros Hmsg. unfold_analyses.
  cmp_cases; simpl; by rewrite dom_insert_present.
Qed.

Lemma phosphorus_analysis_dom t st :
  "phosphorus_recommendation" ∈ dom st.1 ->
  dom (phosphorus_analysis float_str t st).1 = dom st.1.
Proof.
  destruct st as [r a]. simpl. intros Hmsg. unfold_analyses.
  cmp_cases; simpl; by rewrite dom_insert_present.
Qed.

Lemma potassium_analysis_dom t st :
  "potassium_recommendation" ∈ dom st.1 ->
  dom (potassium_analysis float_str t st).1 = dom st.1.
Proof.
  destruct st as [r a]. simpl. intros Hmsg. unfold_analyses.
  cmp_cases; simpl; by rewrite dom_insert_present.
Qed.

Lemma analyses_dom t :
  dom (analyses float_str t).1 = list_to_set recommendation_keys.
Proof.
  unfold analyses.
  assert (forall k, k ∈ recommendation_keys ->
                    k ∈ dom initial_recommendations) as Hin
    by (intros; by rewrite initial_recommendations_dom, elem_of_list_to_set).
  rewrite potassium_analysis_dom, phosphorus_analysis_dom,
    nitrogen_analysis_dom, ph_analysis_dom;
    rewrite ?phosphorus_analysis_dom, ?nitrogen_analysis_dom,
      ?ph_analysis_dom;
    rewrite ?nitrogen_analysis_dom, ?ph_analysis_dom;
    rewrite ?ph_analysis_dom;
    simpl; try apply initial_recommendations_dom;
    apply Hin; unfold recommendation_keys; repeat constructor.
Qed.

Lemma analyses_actions t : (analyses float_str t).2 = emitted float_str t.
Proof.
  unfold analyses, emitted.
  rewrite potassium_analysis_actions, phosphorus_analysis_actions,
    nitrogen_analysis_actions, ph_analysis_actions.
  simpl. by rewrite <- !app_assoc.
Qed.

(** Every emitted action carries one of the three severities. *)
Lemma ph_analysis_priorities t :
  Forall (is_Some ∘ action_priority) (appended (ph_analysis float_str t)).
Proof.
  unfold appended. unfold_analyses.
  cmp_cases; simpl; repeat constructor; by eexists.
Qed.

Lemma nitrogen_analysis_priorities t :
  Forall (is_Some ∘ action_priority)
    (appended (nitrogen_analysis float_str t)).
Proof.
  unfold appended. unfold_analyses.
  cmp_cases; simpl; repeat constructor; by eexists.
Qed.

Lemma phosphorus_analysis_priorities t :
  Forall (is_Some ∘ action_priority)
    (appended (phosphorus_analysis float_str t)).
Proof.
  unfold appended. unfold_analyses.
  cmp_cases; simpl; repeat constructor; by eexists.
Qed.

Lemma potassium_analysis_priorities t :
  Forall (is_Some ∘ action_priority)
    (appended (potassium_analysis float_str t)).
Proof.
  unfold appended. unfold_analyses.
  cmp_cases; simpl; repeat constructor; by eexists.
Qed.

Lemma emitted_priorities t :
  exists ps, mapM action_priority (emitted float_str t) = Some ps.
Proof.
  apply mapM_is_Some_2. unfold emitted. rewrite !Forall_app.
  auto using ph_analysis_priorities, nitrogen_analysis_priorities,
    phosphorus_analysis_priorities, potassium_analysis_priorities.
Qed.

(** The engine returns, with the rolled-up priority and verdict written
    over the store the analyses leave behind. *)
Lemma generate_fertilizer_recommendations_eq t :
  exists ps,
    mapM action_priority (emitted float_str t) = Some ps /\
    generate_fertilizer_recommendations float_str t =
      Ok (<["actions" := VList (emitted float_str t)]>
            (<["priority" := VStr (priority_str (max_severity ps))]>
               (<["overall" := VStr (overall_text (max_severity ps))]>
                  (analyses float_str t).1))).
Proof.
  destruct (emitted_priorities t) as [ps Hps]. exists ps. split; [done|].
  change (generate_fertilizer_recommendations float_str t)
    with (overall_recommendation (analyses float_str t)).
  destruct (analyses float_str t) as [r a] eqn:E.
  assert (a = emitted float_str t) as ->
    by (rewrite <- analyses_actions, E; done).
  by apply overall_recommendation_max.
Qed.

(** Each analysis appends actions of its own type only. *)
Lemma ph_analysis_types t :
  Forall (fun a => a !! "type" = Some "pH adjustment")
    (appended (ph_analysis float_str t)).
Proof.
  unfold appended. unfold_analyses. cmp_cases; simpl; by repeat constructor.
Qed.

Lemma nitrogen_analysis_types t :
  Forall (fun a => a !! "type" = Some "nitrogen")
    (appended (nitrogen_analysis float_str t)).
Proof.
  unfold appended. unfold_analyses. cmp_cases; simpl; by repeat constructor.
Qed.

Lemma phosphorus_analysis_types t :
  Forall (fun a => a !! "type" = Some "phosphorus")
    (appended (phosphorus_analysis float_str t)).
Proof.
  unfold appended. unfold_analyses. cmp_cases; simpl; by repeat constructor.
Qed.

Lemma potassium_analysis_types t :
  Forall (fun a => a !! "type" = Some "potassium")
    (appended (potassium_analysis float_str t)).
Proof.
  unfold appended. unfold_analyses. cmp_cases; simpl; by repeat constructor.
Qed.

(** The actions of one nutrient are the ones its analysis appends. *)
Lemma actions_of_type_ph t :
  actions_of_type "pH adjustment" (emitted float_str t) =
  appended (ph_analysis float_str t).
Proof.
  unfold emitted. rewrite !actions_of_type_app.
  rewrite (actions_of_type_all _ _ (ph_analysis_types t)).
  rewrite (actions_of_type_none _ _ _ (nitrogen_analysis_types t)) by done.
  rewrite (actions_of_type_none _ _ _ (phosphorus_analysis_types t)) by done.
  rewrite (actions_of_type_none _ _ _ (potassium_analysis_types t)) by done.
  by rewrite app_nil_r.
Qed.

Lemma actions_of_type_nitrogen t :
  actions_of_type "nitrogen" (emitted float_str t) =
  appended (nitrogen_analysis float_str t).
Proof.
  unfold emitted. rewrite !actions_of_type_app.
  rewrite (actions_of_type_none _ _ _ (ph_analysis_types t)) by done.
  rewrite (actions_of_type_all _ _ (nitrogen_analysis_types t)).
  rewrite (actions_of_type_none _ _ _ (phosphorus_analysis_types t)) by done.
  rewrite (actions_of_type_none _ _ _ (potassium_analysis_types t)) by done.
  by rewrite app_nil_r.
Qed.

Lemma actions_of_type_phosphorus t :
  actions_of_type "phosphorus" (emitted float_str t) =
  appended (phosphorus_analysis float_str t).
Proof.
  unfold emitted. rewrite !actions_of_type_app.
  rewrite (actions_of_type_none _ _ _ (ph_analysis_types t)) by done.
  rewrite (actions_of_type_none _ _ _ (nitrogen_analysis_types t)) by done.
  rewrite (actions_of_type_all _ _ (phosphorus_analysis_types t)).
  rewrite (actions_of_type_none _ _ _ (potassium_analysis_types t)) by done.
  by rewrite app_nil_r.
Qed.

Lemma actions_of_type_potassium t :
  actions_of_type "potassium" (emitted float_str t) =
  appended (potassium_analysis float_str t).
Proof.
  unfold emitted. rewrite !actions_of_type_app.
  rewrite (actions_of_type_none _ _ _ (ph_analysis_types t)) by done.
  rewrite (actions_of_type_none _ _ _ (nitrogen_analysis_types t)) by done.
  rewrite (actions_of_type_none _ _ _ (phosphorus_analysis_types t)) by done.
  by rewrite (actions_of_type_all _ _ (potassium_analysis_types t)).
Qed.

(** The message an analysis writes does not depend on the store it
    starts from, and the later analyses leave it in place. *)
Lemma nitrogen_analysis_message t st st' :
  (nitrogen_analysis float_str t st).1 !! "nitrogen_recommendation" =
  (nitrogen_analysis float_str t st').1 !! "nitrogen_recommendation".
Proof.
  destruct st as [r a], st' as [r' a']. unfold_analyses.
  cmp_cases; simpl; by rewrite !lookup_insert_eq.
Qed.

Lemma phosphorus_analysis_message t st st' :
  (phosphorus_analysis float_str t st).1 !! "phosphorus_recommendation" =
  (phosphorus_analysis float_str t st').1 !! "phosphorus_recommendation".
Proof.
  destruct st as [r a], st' as [r' a']. unfold_analyses.
  cmp_cases; simpl; by rewrite !lookup_insert_eq.
Qed.

Lemma potassium_analysis_message t st st' :
  (potassium_analysis float_str t st).1 !! "potassium_recommendation" =
  (potassium_analysis float_str t st').1 !! "potassium_recommendation".
Proof.
  destruct st as [r a], st' as [r' a']. unfold_analyses.
  cmp_cases; simpl; by rewrite !lookup_insert_eq.
Qed.

Lemma analyses_ph_recommendation t :
  (analyses float_str t).1 !! "ph_recommendation" =
  (ph_analysis float_str t (initial_recommendations, [])).1
    !! "ph_recommendation".
Proof.
  unfold analyses.
  by rewrite potassium_analysis_lookup, phosphorus_analysis_lookup,
    nitrogen_analysis_lookup.
Qed.

Lemma analyses_nitrogen_recommendation t :
  (analyses float_str t).1 !! "nitrogen_recommendation" =
  (nitrogen_analysis float_str t (∅, [])).1 !! "nitrogen_recommendation".
Proof.
  unfold analyses.
  rewrite potassium_analysis_lookup, phosphorus_analysis_lookup by done.
  apply nitrogen_analysis_message.
Qed.

Lemma analyses_phosphorus_recommendation t :
  (analyses float_str t).1 !! "phosphorus_recommendation" =
  (phosphorus_analysis float_str t (∅, [])).1 !! "phosphorus_recommendation".
Proof.
  unfold analyses. rewrite potassium_analysis_lookup by done.
  apply phosphorus_analysis_message.
Qed.

Lemma analyses_potassium_recommendation t :
  (analyses float_str t).1 !! "potassium_recommendation" =
  (potassium_analysis float_str t (∅, [])).1 !! "potassium_recommendation".
Proof. unfold analyses. apply potassium_analysis_message. Qed.

End EngineFacts.

(** ** The dosage tables *)

(** C4. Each of the five dosage functions follows its table on every
    number: lime is 15 below 5.0, 12 on [5.0, 5.5), 8 on [5.5, 6.0) and 5
    from 6.0 on; sulfur is 10 above 8.0, 6 on (7.5, 8.0] and 3 up to 7.5;
    nitrogen is 4 below 10, 2 on [10, 20) and 1 from 20 on; phosphorus is
    3 below 5, 2 on [5, 15) and 1 from 15 on; potassium is 4 below 50, 3
    on [50, 100) and 1 from 100 on. *)
Theorem C4_dosage_tables (ph n p k : Q) :
  ((ph < 5.0 -> calculate_lime_requirement ph = 15%Z) /\
   (5.0 <= ph /\ ph < 5.5 -> calculate_lime_requirement ph = 12%Z) /\
   (5.5 <= ph /\ ph < 6.0 -> calculate_lime_requirement ph = 8%Z) /\
   (6.0 <= ph -> calculate_lime_requirement ph = 5%Z)) /\
  ((8.0 < ph -> calculate_sulfur_requirement ph = 10%Z) /\
   (7.5 < ph /\ ph <= 8.0 -> calculate_sulfur_requirement ph = 6%Z) /\
   (ph <= 7.5 -> calculate_sulfur_requirement ph = 3%Z)) /\
  ((n < 10 -> calculate_nitrogen_requirement n = 4%Z) /\
   (10 <= n /\ n < 20 -> calculate_nitrogen_requirement n = 2%Z) /\
   (20 <= n -> calculate_nitrogen_requirement n = 1%Z)) /\
  ((p < 5 -> calculate_phosphorus_requirement p = 3%Z) /\
   (5 <= p /\ p < 15 -> calculate_phosphorus_requirement p = 2%Z) /\
   (15 <= p -> calculate_phosphorus_requirement p = 1%Z)) /\
  ((k < 50 -> calculate_potassium_requirement k = 4%Z) /\
   (50 <= k /\ k < 100 -> calculate_potassium_requirement k = 3%Z) /\
   (100 <= k -> calculate_potassium_requirement k = 1%Z)).
Proof.
  unfold calculate_lime_requirement, calculate_sulfur_requirement,
    calculate_nitrogen_requirement, calculate_phosphorus_requirement,
    calculate_potassium_requirement.
  repeat split; intros; cmp_cases; first [reflexivity | lra].
Qed.

(** One row of each table, at a number strictly inside the row. *)
Lemma C4_dosage_tables_witness :
  calculate_lime_requirement 5.2 = 12%Z /\
  calculate_sulfur_requirement 5.2 = 3%Z /\
  calculate_nitrogen_requirement 12 = 2%Z /\
  calculate_phosphorus_requirement 3 = 3%Z /\
  calculate_potassium_requirement 250 = 1%Z.
Proof.
  destruct (C4_dosage_tables 5.2 12 3 250)
    as ((_ & L & _) & (_ & _ & S) & (_ & N & _) & (P & _) & (_ & _ & K)).
  refine (conj (L _) (conj (S _) (conj (N _) (conj (P _) (K _))))).
  - split; [discriminate | reflexivity].
  - discriminate.
  - split; [discriminate | reflexivity].
  - reflexivity.
  - discriminate.
Defined.

(** C8. Dosage is monotone in pH: raising the pH never raises the lime
    dosage (15, 12, 8, 5) and never lowers the sulfur dosage (3, 6, 10). *)
Theorem C8_dosage_monotone (ph1 ph2 : Q) :
  ph1 <= ph2 ->
  (calculate_lime_requirement ph2 <= calculate_lime_requirement ph1)%Z /\
  (calculate_sulfur_requirement ph1 <= calculate_sulfur_requirement ph2)%Z.
Proof.
  intros Hle.
  unfold calculate_lime_requirement, calculate_sulfur_requirement.
  split; cmp_cases; first [lia | lra].
Qed.

Lemma C8_dosage_monotone_witness :
  (calculate_lime_requirement 5.7 <= calculate_lime_requirement 4.9)%Z /\
  (calculate_sulfur_requirement 4.9 <= calculate_sulfur_requirement 5.7)%Z.
Proof. apply (C8_dosage_monotone 4.9 5.7). discriminate. Defined.

(** ** The engine: priority roll-up *)

(** C1. For every input the engine returns a recommendation whose priority
    is the largest severity among the emitted actions, with
    low < medium < high, and is low when no action is emitted. *)
Theorem C1_priority_is_max_severity (float_str : Q -> string) (t : SoilTest) :
  exists recs acts ps,
    generate_fertilizer_recommendations float_str t = Ok recs /\
    recs !! "actions" = Some (VList acts) /\
    mapM action_priority acts = Some ps /\
    recs !! "priority" = Some (VStr (priority_str (max_severity ps))) /\
    (acts = [] -> recs !! "priority" = Some (VStr "low")).
Proof.
  destruct (generate_fertilizer_recommendations_eq float_str t)
    as (ps & Hps & ->).
  eexists _, _, ps. split; [done|].
  split; [apply lookup_insert_eq|].
  split; [done|].
  rewrite lookup_insert_ne, lookup_insert_eq by done.
  split; [done|].
  intros Hnil. rewrite Hnil in Hps. by injection Hps as <-.
Qed.

(** The empty case of C1 on a test whose four measurements are all in
    their neutral range. *)
Lemma C1_priority_is_max_severity_witness :
  exists recs,
    generate_fertilizer_recommendations ratio_str
      (soil_test "Field" 6.5 30 30 200 "2024-01-01") = Ok recs /\
    recs !! "priority" = Some (VStr "low").
Proof.
  destruct (C1_priority_is_max_severity ratio_str
              (soil_test "Field" 6.5 30 30 200 "2024-01-01"))
    as (recs & acts & ps & Hrun & Hacts & _ & _ & Hempty).
  exists recs. split; [exact Hrun|]. apply Hempty.
  assert (match generate_fertilizer_recommendations ratio_str
                  (soil_test "Field" 6.5 30 30 200 "2024-01-01") with
          | Ok m => m !! "actions"
          | Raise _ => None
          end = Some (VList [])) as Hnone by (vm_compute; reflexivity).
  rewrite Hrun, Hacts in Hnone. congruence.
Defined.

(** ** The engine: what the pH analysis contributes *)

(** The pH actions of a run, by the side of the optimal range the pH falls
    on.  Shared by the facts about the pH classification and about the
    range of the emitted dosages. *)
Lemma ph_actions_of_run (float_str : Q -> string) (t : SoilTest) :
  exists recs acts,
    generate_fertilizer_recommendations float_str t = Ok recs /\
    recs !! "actions" = Some (VList acts) /\
    (models.ph t < 6.0 ->
       actions_of_type "pH adjustment" acts =
         [lime_action (calculate_lime_requirement (models.ph t))]) /\
    (7.5 < models.ph t ->
       actions_of_type "pH adjustment" acts =
         [sulfur_action (calculate_sulfur_requirement (models.ph t))]).
Proof.
  destruct (generate_fertilizer_recommendations_eq float_str t)
    as (ps & Hps & ->).
  eexists _, _. split; [done|]. split; [apply lookup_insert_eq|].
  rewrite actions_of_type_ph. unfold appended. unfold_analyses.
  split; intros; cmp_cases; try lra; reflexivity.
Qed.

(** ** The engine: pH classification *)

(** C3. The pH classification is three-way with the boundaries on the
    optimal side: pH 6.0 and pH 7.5 are reported optimal and emit no pH
    action; every pH below 6.0 is reported acidic and emits a
    high-priority lime action; every pH above 7.5 is reported alkaline and
    emits a high-priority sulfur action. *)
Theorem C3_ph_classification (float_str : Q -> string) (t : SoilTest) :
  exists recs acts,
    generate_fertilizer_recommendations float_str t = Ok recs /\
    recs !! "actions" = Some (VList acts) /\
    (models.ph t == 6.0 \/ models.ph t == 7.5 ->
       recs !! "ph_recommendation" =
         Some (VStr (ph_text float_str optimal (models.ph t))) /\
       actions_of_type "pH adjustment" acts = []) /\
    (models.ph t < 6.0 ->
       recs !! "ph_recommendation" =
         Some (VStr (ph_text float_str acidic (models.ph t))) /\
       actions_of_type "pH adjustment" acts =
         [lime_action (calculate_lime_requirement (models.ph t))] /\
       lime_action (calculate_lime_requirement (models.ph t)) !! "priority" =
         Some "high") /\
    (7.5 < models.ph t ->
       recs !! "ph_recommendation" =
         Some (VStr (ph_text float_str alkaline (models.ph t))) /\
       actions_of_type "pH adjustment" acts =
         [sulfur_action (calculate_sulfur_requirement (models.ph t))] /\
       sulfur_action (calculate_sulfur_requirement (models.ph t)) !! "priority" =
         Some "high").
Proof.
  destruct (generate_fertilizer_recommendations_eq float_str t)
    as (ps & Hps & ->).
  eexists _, _. split; [done|]. split; [apply lookup_insert_eq|].
  rewrite !(lookup_insert_ne _ _ "ph_recommendation") by done.
  rewrite analyses_ph_recommendation, actions_of_type_ph.
  unfold appended. unfold_analyses.
  repeat split; cmp_cases; try lra; simpl;
    rewrite ?lookup_insert_eq, ?(lookup_insert_ne _ "priority") by done;
    rewrite ?lookup_insert_eq; reflexivity.
Qed.

(** C3 on the boundary 6.0, below it and above 7.5. *)
Lemma C3_ph_classification_witness :
  (exists recs acts,
     generate_fertilizer_recommendations ratio_str
       (soil_test "Field" 6.0 30 30 200 "2024-01-01") = Ok recs /\
     recs !! "actions" = Some (VList acts) /\
     actions_of_type "pH adjustment" acts = []) /\
  (exists recs acts,
     generate_fertilizer_recommendations ratio_str
       (soil_test "Field" 5.999 30 30 200 "2024-01-01") = Ok recs /\
     recs !! "actions" = Some (VList acts) /\
     actions_of_type "pH adjustment" acts = [lime_action 8]) /\
  (exists recs acts,
     generate_fertilizer_recommendations ratio_str
       (soil_test "Field" 7.5001 30 30 200 "2024-01-01") = Ok recs /\
     recs !! "actions" = Some (VList acts) /\
     actions_of_type "pH adjustment" acts = [sulfur_action 6]).
Proof.
  split; [|split].
  - destruct (C3_ph_classification ratio_str
                (soil_test "Field" 6.0 30 30 200 "2024-01-01"))
      as (recs & acts & Hrun & Hacts & Hoptimal & _ & _).
    exists recs, acts. split; [exact Hrun|]. split; [exact Hacts|].
    apply Hoptimal. left. reflexivity.
  - destruct (C3_ph_classification ratio_str
                (soil_test "Field" 5.999 30 30 200 "2024-01-01"))
      as (recs & acts & Hrun & Hacts & _ & Hacidic & _).
    exists recs, acts. split; [exact Hrun|]. split; [exact Hacts|].
    apply Hacidic. reflexivity.
  - destruct (C3_ph_classification ratio_str
                (soil_test "Field" 7.5001 30 30 200 "2024-01-01"))
      as (recs & acts & Hrun & Hacts & _ & _ & Halkaline).
    exists recs, acts. split; [exact Hrun|]. split; [exact Hacts|].
    apply Halkaline. reflexivity.
Defined.

(** C10. When the engine emits the lime action (pH below 6.0) its dosage
    is 8, 12 or 15, never the 5 of the last branch of
    [calculate_lime_requirement]; when it emits the sulfur action (pH
    above 7.5) its dosage is 6 or 10, never the 3 of the last branch of
    [calculate_sulfur_requirement]. *)
Theorem C10_engine_dosage_range (float_str : Q -> string) (t : SoilTest) :
  exists recs acts,
    generate_fertilizer_recommendations float_str t = Ok recs /\
    recs !! "actions" = Some (VList acts) /\
    (models.ph t < 6.0 ->
       exists d, actions_of_type "pH adjustment" acts = [lime_action d] /\
                 d = calculate_lime_requirement (models.ph t) /\
                 (d = 8 \/ d = 12 \/ d = 15)%Z) /\
    (7.5 < models.ph t ->
       exists d, actions_of_type "pH adjustment" acts = [sulfur_action d] /\
                 d = calculate_sulfur_requirement (models.ph t) /\
                 (d = 6 \/ d = 10)%Z).
Proof.
  destruct (ph_actions_of_run float_str t)
    as (recs & acts & Hrun & Hacts & Hlime & Hsulfur).
  exists recs, acts. split; [done|]. split; [done|].
  split; intros Hph; eexists; (split; [auto|]); (split; [done|]).
  - unfold calculate_lime_requirement. cmp_cases; auto; lra.
  - unfold calculate_sulfur_requirement. cmp_cases; auto; lra.
Qed.

Lemma C10_engine_dosage_range_witness :
  (exists recs acts d,
     generate_fertilizer_recommendations ratio_str
       (soil_test "Field" 5.2 30 30 200 "2024-01-01") = Ok recs /\
     recs !! "actions" = Some (VList acts) /\
     actions_of_type "pH adjustment" acts = [lime_action d] /\
     (d = 8 \/ d = 12 \/ d = 15)%Z) /\
  (exists recs acts d,
     generate_fertilizer_recommendations ratio_str
       (soil_test "Field" 8.4 30 30 200 "2024-01-01") = Ok recs /\
     recs !! "actions" = Some (VList acts) /\
     actions_of_type "pH adjustment" acts = [sulfur_action d] /\
     (d = 6 \/ d = 10)%Z).
Proof.
  split.
  - destruct (C10_engine_dosage_range ratio_str
                (soil_test "Field" 5.2 30 30 200 "2024-01-01"))
      as (recs & acts & Hrun & Hacts & Hlime & _).
    destruct Hlime as (d & Hd & _ & Hrange); [reflexivity|].
    exists recs, acts, d. auto.
  - destruct (C10_engine_dosage_range ratio_str
                (soil_test "Field" 8.4 30 30 200 "2024-01-01"))
      as (recs & acts & Hrun & Hacts & _ & Hsulfur).
    destruct Hsulfur as (d & Hd & _ & Hrange); [reflexivity|].
    exists recs, acts, d. auto.
Defined.

(** ** The engine: the nutrient analyses *)

(** C6. A nutrient exactly on a boundary of its adequate band emits no
    action for that nutrient: nitrogen 20 or 50, phosphorus 15 or 50,
    potassium 100 or 300. *)
Theorem C6_no_action_on_boundaries (float_str : Q -> string) (t : SoilTest) :
  exists recs acts,
    generate_fertilizer_recommendations float_str t = Ok recs /\
    recs !! "actions" = Some (VList acts) /\
    (models.nitrogen t == 20 \/ models.nitrogen t == 50 ->
       actions_of_type "nitrogen" acts = []) /\
    (models.phosphorus t == 15 \/ models.phosphorus t == 50 ->
       actions_of_type "phosphorus" acts = []) /\
    (models.potassium t == 100 \/ models.potassium t == 300 ->
       actions_of_type "potassium" acts = []).
Proof.
  destruct (generate_fertilizer_recommendations_eq float_str t)
    as (ps & Hps & ->).
  eexists _, _. split; [done|]. split; [apply lookup_insert_eq|].
  rewrite actions_of_type_nitrogen, actions_of_type_phosphorus,
    actions_of_type_potassium.
  unfold appended. unfold_analyses.
  repeat split; cmp_cases; first [reflexivity | lra].
Qed.

(** C6 with all three nutrients on a boundary, next to a pH that does emit
    an action. *)
Lemma C6_no_action_on_boundaries_witness :
  exists recs acts,
    generate_fertilizer_recommendations ratio_str
      (soil_test "Field" 5.0 20 50 300 "2024-01-01") = Ok recs /\
    recs !! "actions" = Some (VList acts) /\
    actions_of_type "nitrogen" acts = [] /\
    actions_of_type "phosphorus" acts = [] /\
    actions_of_type "potassium" acts = [].
Proof.
  destruct (C6_no_action_on_boundaries ratio_str
              (soil_test "Field" 5.0 20 50 300 "2024-01-01"))
    as (recs & acts & Hrun & Hacts & Hn & Hp & Hk).
  exists recs, acts. split; [exact Hrun|]. split; [exact Hacts|].
  split; [|split].
  - apply Hn. left. reflexivity.
  - apply Hp. right. reflexivity.
  - apply Hk. right. reflexivity.
Defined.

(** ** The engine: totality *)

(** C5. The engine is total: on every numbers whatsoever, negative ppm or a
    pH outside 0-14 included, it returns a dictionary with exactly the
    seven keys of a recommendation, a non-empty text under the verdict and
    the four per-nutrient keys, one of low, medium, high under
    ['priority'] and a list under ['actions']; it never raises. *)
Theorem C5_engine_total (float_str : Q -> string) (t : SoilTest) :
  exists recs,
    generate_fertilizer_recommendations float_str t = Ok recs /\
    dom recs = list_to_set recommendation_keys /\
    (forall k, k ∈ ["overall"; "ph_recommendation"; "nitrogen_recommendation";
                    "phosphorus_recommendation"; "potassium_recommendation"] ->
       exists s, recs !! k = Some (VStr s) /\ s ≠ "") /\
    (exists p, recs !! "priority" = Some (VStr (priority_str p))) /\
    (exists acts, recs !! "actions" = Some (VList acts)).
Proof.
  destruct (generate_fertilizer_recommendations_eq float_str t)
    as (ps & Hps & ->).
  eexists. split; [done|].
  split; [|split; [|split]].
  - rewrite !dom_insert_present; [apply analyses_dom|..];
      rewrite ?dom_insert_present; rewrite ?dom_insert_present;
      rewrite ?analyses_dom, ?elem_of_list_to_set;
      unfold recommendation_keys; repeat constructor.
  - intros k Hk.
    rewrite !elem_of_cons, elem_of_nil in Hk.
    destruct Hk as [->|[->|[->|[->|[->|[]]]]]].
    + rewrite lookup_insert_ne, lookup_insert_ne, lookup_insert_eq by done.
      eexists. split; [done|]. by destruct (max_severity ps).
    + rewrite !(lookup_insert_ne _ _ "ph_recommendation") by done.
      rewrite analyses_ph_recommendation. unfold_analyses.
      cmp_cases; simpl;
        rewrite ?(lookup_insert_ne _ "priority") by done;
        rewrite lookup_insert_eq; eexists; (split; [done|done]).
    + rewrite !(lookup_insert_ne _ _ "nitrogen_recommendation") by done.
      rewrite analyses_nitrogen_recommendation. unfold_analyses.
      cmp_cases; simpl; rewrite lookup_insert_eq; eexists; (split; [done|done]).
    + rewrite !(lookup_insert_ne _ _ "phosphorus_recommendation") by done.
      rewrite analyses_phosphorus_recommendation. unfold_analyses.
      cmp_cases; simpl; rewrite lookup_insert_eq; eexists; (split; [done|done]).
    + rewrite !(lookup_insert_ne _ _ "potassium_recommendation") by done.
      rewrite analyses_potassium_recommendation. unfold_analyses.
      cmp_cases; simpl; rewrite lookup_insert_eq; eexists; (split; [done|done]).
  - eexists. by rewrite lookup_insert_ne, lookup_insert_eq.
  - eexists. apply lookup_insert_eq.
Qed.

(** C5 on values no soil has: negative pH and ppm, and a huge potassium. *)
Lemma C5_engine_total_witness :
  exists recs s,
    generate_fertilizer_recommendations ratio_str
      (soil_test "Field" (-3) (-10) (-5) 100000 "2024-01-01") = Ok recs /\
    recs !! "ph_recommendation" = Some (VStr s) /\ s ≠ "".
Proof.
  destruct (C5_engine_total ratio_str
              (soil_test "Field" (-3) (-10) (-5) 100000 "2024-01-01"))
    as (recs & Hrun & _ & Htexts & _).
  destruct (Htexts "ph_recommendation") as (s & Hs & Hne);
    [repeat constructor|].
  exists recs, s. split; [exact Hrun|]. split; [exact Hs|exact Hne].
Defined.

(** ** The engine and the score on floats with their special values *)

(** On finite floats the engine of [ieee] is the engine above, with the
    formatter that prints zero as [0.0]. *)
Lemma ieee_generate_of_soil_test (float_str : Q -> string) (t : SoilTest) :
  ieee.generate_fertilizer_recommendations float_str (ieee.of_soil_test t) =
  generate_fertilizer_recommendations
    (fun x => ieee.repr float_str (ieee.Finite x)) t.
Proof. reflexivity. Qed.

Lemma ieee_analyze_of_soil_test (t : SoilTest) :
  ieee.analyze_soil_health (ieee.of_soil_test t) = analyze_soil_health t.
Proof. reflexivity. Qed.

Lemma Qeq_bool_lt (p q c : Q) : Qeq_bool p q = true -> lt p c = lt q c.
Proof.
  intros Hpq%Qeq_bool_iff.
  destruct (lt p c) eqn:Hp, (lt q c) eqn:Hq; cmp_facts; first [done | lra].
Qed.

(** Floats that are equal compare alike with every literal. *)
Lemma ieee_eqb_lt (x y : ieee.double) (c : Q) :
  ieee.eqb x y = true -> ieee.lt x c = ieee.lt y c.
Proof.
  destruct x, y; simpl; try done; intros H;
    first [by apply Qeq_bool_lt | by apply (Qeq_bool_lt _ 0) | by apply (Qeq_bool_lt 0)].
Qed.

Lemma ieee_eqb_gt (x y : ieee.double) (c : Q) :
  ieee.eqb x y = true -> ieee.gt x c = ieee.gt y c.
Proof.
  destruct x, y; simpl; try done; unfold gt; intros H%Qeq_bool_iff;
    match goal with
    | |- lt c ?p = lt c ?q =>
        destruct (lt c p) eqn:Hp, (lt c q) eqn:Hq; cmp_facts;
        first [done | lra]
    end.
Qed.

Ltac ieee_cases :=
  repeat match goal with
  | |- context [if ieee.lt ?x ?c then _ else _] => destruct (ieee.lt x c) eqn:?
  | |- context [if ieee.gt ?x ?c then _ else _] => destruct (ieee.gt x c) eqn:?
  end.

Ltac unfold_ieee_analyses :=
  unfold ieee.ph_analysis, ieee.nitrogen_analysis, ieee.phosphorus_analysis,
    ieee.potassium_analysis;
  cbv beta iota zeta.

Section IeeeFacts.

Variable float_str : Q -> string.
Implicit Types (t : ieee.SoilTest) (st : store).

(** Each analysis only appends to the actions list. *)
Lemma ieee_ph_analysis_actions t st :
  (ieee.ph_analysis float_str t st).2 =
  st.2 ++ appended (ieee.ph_analysis float_str t).
Proof.
  destruct st as [r a]. unfold appended. unfold_ieee_analyses.
  ieee_cases; simpl; by rewrite ?app_nil_r.
Qed.

Lemma ieee_nitrogen_analysis_actions t st :
  (ieee.nitrogen_analysis float_str t st).2 =
  st.2 ++ appended (ieee.nitrogen_analysis float_str t).
Proof.
  destruct st as [r a]. unfold appended. unfold_ieee_analyses.
  ieee_cases; simpl; by rewrite ?app_nil_r.
Qed.

Lemma ieee_phosphorus_analysis_actions t st :
  (ieee.phosphorus_analysis float_str t st).2 =
  st.2 ++ appended (ieee.phosphorus_analysis float_str t).
Proof.
  destruct st as [r a]. unfold appended. unfold_ieee_analyses.
  ieee_cases; simpl; by rewrite ?app_nil_r.
Qed.

Lemma ieee_potassium_analysis_actions t st :
  (ieee.potassium_analysis float_str t st).2 =
  st.2 ++ appended (ieee.potassium_analysis float_str t).
Proof.
  destruct st as [r a]. unfold appended. unfold_ieee_analyses.
  ieee_cases; simpl; by rewrite ?app_nil_r.
Qed.

Lemma ieee_analyses_actions t :
  (ieee.analyses float_str t).2 = ieee.emitted float_str t.
Proof.
  unfold ieee.analyses, ieee.emitted.
  rewrite ieee_potassium_analysis_actions, ieee_phosphorus_analysis_actions,
    ieee_nitrogen_analysis_actions, ieee_ph_analysis_actions.
  simpl. by rewrite <- !app_assoc.
Qed.

(** Every emitted action carries one of the three severities. *)
Lemma ieee_emitted_priorities t :
  exists ps, mapM action_priority (ieee.emitted float_str t) = Some ps.
Proof.
  apply mapM_is_Some_2. unfold ieee.emitted. rewrite !Forall_app.
  repeat split; unfold appended; unfold_ieee_analyses;
    ieee_cases; simpl; repeat constructor; by eexists.
Qed.

(** The engine returns, with the rolled-up priority and verdict written
    over the store the analyses leave behind. *)
Lemma ieee_generate_fertilizer_recommendations_eq t :
  exists ps,
    mapM action_priority (ieee.emitted float_str t) = Some ps /\
    ieee.generate_fertilizer_recommendations float_str t =
      Ok (<["actions" := VList (ieee.emitted float_str t)]>
            (<["priority" := VStr (priority_str (max_severity ps))]>
               (<["overall" := VStr (overall_text (max_severity ps))]>
                  (ieee.analyses float_str t).1))).
Proof.
  destruct (ieee_emitted_priorities t) as [ps Hps]. exists ps. split; [done|].
  change (ieee.generate_fertilizer_recommendations float_str t)
    with (overall_recommendation (ieee.analyses float_str t)).
  destruct (ieee.analyses float_str t) as [r a] eqn:E.
  assert (a = ieee.emitted float_str t) as ->
    by (rewrite <- ieee_analyses_actions, E; done).
  by apply overall_recommendation_max.
Qed.

(** Each analysis appends at most one action, of its own type. *)
Lemma ieee_ph_analysis_types t :
  Forall (fun a => a !! "type" = Some "pH adjustment")
    (appended (ieee.ph_analysis float_str t)) /\
  (length (appended (ieee.ph_analysis float_str t)) <= 1)%nat.
Proof.
  unfold appended. unfold_ieee_analyses.
  ieee_cases; simpl; (split; [by repeat constructor | lia]).
Qed.

Lemma ieee_nitrogen_analysis_types t :
  Forall (fun a => a !! "type" = Some "nitrogen")
    (appended (ieee.nitrogen_analysis float_str t)) /\
  (length (appended (ieee.nitrogen_analysis float_str t)) <= 1)%nat.
Proof.
  unfold appended. unfold_ieee_analyses.
  ieee_cases; simpl; (split; [by repeat constructor | lia]).
Qed.

Lemma ieee_phosphorus_analysis_types t :
  Forall (fun a => a !! "type" = Some "phosphorus")
    (appended (ieee.phosphorus_analysis float_str t)) /\
  (length (appended (ieee.phosphorus_analysis float_str t)) <= 1)%nat.
Proof.
  unfold appended. unfold_ieee_analyses.
  ieee_cases; simpl; (split; [by repeat constructor | lia]).
Qed.

Lemma ieee_potassium_analysis_types t :
  Forall (fun a => a !! "type" = Some "potassium")
    (appended (ieee.potassium_analysis float_str t)) /\
  (length (appended (ieee.potassium_analysis float_str t)) <= 1)%nat.
Proof.
  unfold appended. unfold_ieee_analyses.
  ieee_cases; simpl; (split; [by repeat constructor | lia]).
Qed.

(** The actions of one nutrient are the ones its analysis appends. *)
Lemma ieee_actions_of_type t :
  actions_of_type "pH adjustment" (ieee.emitted float_str t) =
    appended (ieee.ph_analysis float_str t) /\
  actions_of_type "nitrogen" (ieee.emitted float_str t) =
    appended (ieee.nitrogen_analysis float_str t) /\
  actions_of_type "phosphorus" (ieee.emitted float_str t) =
    appended (ieee.phosphorus_analysis float_str t) /\
  actions_of_type "potassium" (ieee.emitted float_str t) =
    appended (ieee.potassium_analysis float_str t).
Proof.
  destruct (ieee_ph_analysis_types t) as [Hph _].
  destruct (ieee_nitrogen_analysis_types t) as [Hn _].
  destruct (ieee_phosphorus_analysis_types t) as [Hp _].
  destruct (ieee_potassium_analysis_types t) as [Hk _].
  unfold ieee.emitted. rewrite !actions_of_type_app.
  repeat split.
  - rewrite (actions_of_type_all _ _ Hph).
    rewrite (actions_of_type_none _ _ _ Hn) by done.
    rewrite (actions_of_type_none _ _ _ Hp) by done.
    rewrite (actions_of_type_none _ _ _ Hk) by done.
    by rewrite app_nil_r.
  - rewrite (actions_of_type_none _ _ _ Hph) by done.
    rewrite (actions_of_type_all _ _ Hn).
    rewrite (actions_of_type_none _ _ _ Hp) by done.
    rewrite (actions_of_type_none _ _ _ Hk) by done.
    by rewrite app_nil_r.
  - rewrite (actions_of_type_none _ _ _ Hph) by done.
    rewrite (actions_of_type_none _ _ _ Hn) by done.
    rewrite (actions_of_type_all _ _ Hp).
    rewrite (actions_of_type_none _ _ _ Hk) by done.
    by rewrite app_nil_r.
  - rewrite (actions_of_type_none _ _ _ Hph) by done.
    rewrite (actions_of_type_none _ _ _ Hn) by done.
    rewrite (actions_of_type_none _ _ _ Hp) by done.
    by rewrite (actions_of_type_all _ _ Hk).
Qed.

(** An analysis appends nothing exactly when its measurement is in the
    neutral range or is NaN. *)
Lemma ieee_in_range_or_nan (lo hi : Q) (x : ieee.double) :
  ieee.lt x lo = false /\ ieee.gt x hi = false <-> ieee.in_range_or_nan lo hi x.
Proof.
  destruct x; simpl; unfold gt; rewrite ?lt_false; intuition discriminate.
Qed.

Lemma ieee_ph_analysis_nil t :
  appended (ieee.ph_analysis float_str t) = [] <->
  ieee.in_range_or_nan 6.0 7.5 (ieee.ph t).
Proof.
  rewrite <- ieee_in_range_or_nan. unfold appended. unfold_ieee_analyses.
  ieee_cases; simpl; intuition discriminate.
Qed.

Lemma ieee_nitrogen_analysis_nil t :
  appended (ieee.nitrogen_analysis float_str t) = [] <->
  ieee.in_range_or_nan 20 50 (ieee.nitrogen t).
Proof.
  rewrite <- ieee_in_range_or_nan. unfold appended. unfold_ieee_analyses.
  ieee_cases; simpl; intuition discriminate.
Qed.

Lemma ieee_phosphorus_analysis_nil t :
  appended (ieee.phosphorus_analysis float_str t) = [] <->
  ieee.in_range_or_nan 15 50 (ieee.phosphorus t).
Proof.
  rewrite <- ieee_in_range_or_nan. unfold appended. unfold_ieee_analyses.
  ieee_cases; simpl; intuition discriminate.
Qed.

Lemma ieee_potassium_analysis_nil t :
  appended (ieee.potassium_analysis float_str t) = [] <->
  ieee.in_range_or_nan 100 300 (ieee.potassium t).
Proof.
  rewrite <- ieee_in_range_or_nan. unfold appended. unfold_ieee_analyses.
  ieee_cases; simpl; intuition discriminate.
Qed.

Lemma ieee_emitted_nil_iff t :
  ieee.emitted float_str t = [] <->
    ieee.in_range_or_nan 6.0 7.5 (ieee.ph t) /\
    ieee.in_range_or_nan 20 50 (ieee.nitrogen t) /\
    ieee.in_range_or_nan 15 50 (ieee.phosphorus t) /\
    ieee.in_range_or_nan 100 300 (ieee.potassium t).
Proof.
  rewrite <- ieee_ph_analysis_nil, <- ieee_nitrogen_analysis_nil,
    <- ieee_phosphorus_analysis_nil, <- ieee_potassium_analysis_nil.
  unfold ieee.emitted. split.
  - intros H. repeat (apply app_eq_nil in H as [? H]). done.
  - by intros (-> & -> & -> & ->).
Qed.

(** The actions depend on the measurements through comparisons only:
    measurements that are equal get the same actions. *)
Lemma ieee_ph_analysis_agree t1 t2 :
  ieee.eqb (ieee.ph t1) (ieee.ph t2) = true ->
  appended (ieee.ph_analysis float_str t1) =
  appended (ieee.ph_analysis float_str t2).
Proof.
  intros H. unfold appended. unfold_ieee_analyses.
  unfold ieee.calculate_lime_requirement, ieee.calculate_sulfur_requirement.
  rewrite !(ieee_eqb_lt _ _ _ H), !(ieee_eqb_gt _ _ _ H).
  ieee_cases; reflexivity.
Qed.

Lemma ieee_nitrogen_analysis_agree t1 t2 :
  ieee.eqb (ieee.nitrogen t1) (ieee.nitrogen t2) = true ->
  appended (ieee.nitrogen_analysis float_str t1) =
  appended (ieee.nitrogen_analysis float_str t2).
Proof.
  intros H. unfold appended. unfold_ieee_analyses.
  unfold ieee.calculate_nitrogen_requirement.
  rewrite !(ieee_eqb_lt _ _ _ H), !(ieee_eqb_gt _ _ _ H).
  ieee_cases; reflexivity.
Qed.

Lemma ieee_phosphorus_analysis_agree t1 t2 :
  ieee.eqb (ieee.phosphorus t1) (ieee.phosphorus t2) = true ->
  appended (ieee.phosphorus_analysis float_str t1) =
  appended (ieee.phosphorus_analysis float_str t2).
Proof.
  intros H. unfold appended. unfold_ieee_analyses.
  unfold ieee.calculate_phosphorus_requirement.
  rewrite !(ieee_eqb_lt _ _ _ H), !(ieee_eqb_gt _ _ _ H).
  ieee_cases; reflexivity.
Qed.

Lemma ieee_potassium_analysis_agree t1 t2 :
  ieee.eqb (ieee.potassium t1) (ieee.potassium t2) = true ->
  appended (ieee.potassium_analysis float_str t1) =
  appended (ieee.potassium_analysis float_str t2).
Proof.
  intros H. unfold appended. unfold_ieee_analyses.
  unfold ieee.calculate_potassium_requirement.
  rewrite !(ieee_eqb_lt _ _ _ H), !(ieee_eqb_gt _ _ _ H).
  ieee_cases; reflexivity.
Qed.

Lemma ieee_emitted_agree t1 t2 :
  ieee.agree t1 t2 -> ieee.emitted float_str t1 = ieee.emitted float_str t2.
Proof.
  intros (Hph & Hn & Hp & Hk). unfold ieee.emitted.
  by rewrite (ieee_ph_analysis_agree _ _ Hph),
    (ieee_nitrogen_analysis_agree _ _ Hn),
    (ieee_phosphorus_analysis_agree _ _ Hp),
    (ieee_potassium_analysis_agree _ _ Hk).
Qed.

End IeeeFacts.

Lemma ieee_between_scored_as (lo hi : Q) (x : ieee.double) :
  0 <= lo ->
  ieee.between lo x hi = le lo (ieee.scored_as x) && le (ieee.scored_as x) hi.
Proof.
  intros Hlo. destruct x; simpl; try done;
    (assert (le lo (-1) = false) as -> by (apply le_false; lra)); done.
Qed.

(** The score of an instance is the score of the record over [Q] that has
    [-1] in place of an infinite or NaN measurement. *)
Lemma ieee_analyze_soil_health_scored_as (t : ieee.SoilTest) :
  ieee.analyze_soil_health t = analyze_soil_health (ieee.scored_as_test t).
Proof.
  unfold ieee.analyze_soil_health, analyze_soil_health.
  unfold ieee.ph_score, ieee.nitrogen_score, ieee.phosphorus_score,
    ieee.potassium_score, ph_score, nitrogen_score, phosphorus_score,
    potassium_score.
  cbv zeta. rewrite !ieee_between_scored_as by lra. reflexivity.
Qed.

(** ** The engine: determinism *)

(** C7, as the code has it.  The engine reads the four measurements only.
    Two tests that hold the same four floats get identical results,
    whatever their id, location, coordinates, notes and date.  Two tests
    whose measurements are merely equal as numbers (Python's [==], which
    holds between [0.0] and [-0.0]) get the same priority, the same
    overall verdict and the same actions, in the same order; the four
    per-nutrient texts print the measurement and need not be the same. *)
Theorem C7_engine_same_measurements (float_str : Q -> string)
    (t1 t2 : ieee.SoilTest) :
  (ieee.ph t1 = ieee.ph t2 ->
   ieee.nitrogen t1 = ieee.nitrogen t2 ->
   ieee.phosphorus t1 = ieee.phosphorus t2 ->
   ieee.potassium t1 = ieee.potassium t2 ->
   ieee.generate_fertilizer_recommendations float_str t1 =
   ieee.generate_fertilizer_recommendations float_str t2) /\
  (ieee.agree t1 t2 ->
   exists recs1 recs2 priority overall actions,
     ieee.generate_fertilizer_recommendations float_str t1 = Ok recs1 /\
     ieee.generate_fertilizer_recommendations float_str t2 = Ok recs2 /\
     recs1 !! "priority" = Some (VStr priority) /\
     recs2 !! "priority" = Some (VStr priority) /\
     recs1 !! "overall" = Some (VStr overall) /\
     recs2 !! "overall" = Some (VStr overall) /\
     recs1 !! "actions" = Some (VList actions) /\
     recs2 !! "actions" = Some (VList actions)).
Proof.
  split.
  - intros Hph Hn Hp Hk.
    unfold ieee.generate_fertilizer_recommendations. f_equal.
    unfold_ieee_analyses. by rewrite Hph, Hn, Hp, Hk.
  - intros Hagree.
    destruct (ieee_generate_fertilizer_recommendations_eq float_str t1)
      as (ps1 & Hps1 & ->).
    destruct (ieee_generate_fertilizer_recommendations_eq float_str t2)
      as (ps2 & Hps2 & ->).
    rewrite (ieee_emitted_agree float_str t1 t2 Hagree) in Hps1 |- *.
    assert (ps1 = ps2) as -> by congruence.
    eexists _, _, _, _, _. split; [reflexivity|]. split; [reflexivity|].
    rewrite !lookup_insert_eq.
    rewrite !(lookup_insert_ne _ "actions" "priority"),
      !(lookup_insert_ne _ "actions" "overall") by done.
    rewrite !lookup_insert_eq.
    rewrite !(lookup_insert_ne _ "priority" "overall") by done.
    rewrite !lookup_insert_eq. done.
Qed.

(** C7 on two tests that share their measurements and nothing else, and
    on two tests that differ in the sign of a zero. *)
Lemma C7_engine_same_measurements_witness :
  ieee.generate_fertilizer_recommendations ratio_str field_test =
  ieee.generate_fertilizer_recommendations ratio_str greenhouse_test /\
  exists recs1 recs2 priority overall actions,
    ieee.generate_fertilizer_recommendations ratio_str zero_nitrogen_test
      = Ok recs1 /\
    ieee.generate_fertilizer_recommendations ratio_str
      minus_zero_nitrogen_test = Ok recs2 /\
    recs1 !! "priority" = Some (VStr priority) /\
    recs2 !! "priority" = Some (VStr priority) /\
    recs1 !! "overall" = Some (VStr overall) /\
    recs2 !! "overall" = Some (VStr overall) /\
    recs1 !! "actions" = Some (VList actions) /\
    recs2 !! "actions" = Some (VList actions).
Proof.
  split.
  - apply (C7_engine_same_measurements ratio_str field_test greenhouse_test);
      reflexivity.
  - apply (C7_engine_same_measurements ratio_str zero_nitrogen_test
             minus_zero_nitrogen_test).
    repeat split.
Defined.

(** The claim as written asks for identical outputs of tests that agree on
    the measurements.  A nitrogen reading of [0.0] and one of [-0.0] agree,
    yet the nitrogen text is printed with [0.0] for the one and with
    [-0.0] for the other, whatever the formatter of the other floats. *)
Lemma C7_counterexample :
  ieee.agree zero_nitrogen_test minus_zero_nitrogen_test /\
  forall float_str : Q -> string,
    ieee.generate_fertilizer_recommendations float_str zero_nitrogen_test <>
    ieee.generate_fertilizer_recommendations float_str
      minus_zero_nitrogen_test.
Proof.
  split; [repeat split|].
  intros float_str Heq.
  pose proof (f_equal (fun r => match r with
                                | Ok m => m !! "nitrogen_recommendation"
                                | Raise _ => None
                                end) Heq) as Htext.
  vm_compute in Htext. discriminate Htext.
Qed.

(** ** The engine: the first scenario *)

Lemma emitted_acidic_deficient (float_str : Q -> string) (t : SoilTest) :
  models.ph t < 6.0 -> models.nitrogen t < 20 ->
  models.phosphorus t < 15 -> models.potassium t < 100 ->
  emitted float_str t =
    [lime_action (calculate_lime_requirement (models.ph t));
     nitrogen_action (calculate_nitrogen_requirement (models.nitrogen t));
     phosphorus_action (calculate_phosphorus_requirement (models.phosphorus t));
     potassium_action (calculate_potassium_requirement (models.potassium t))].
Proof.
  intros. unfold emitted, appended. unfold_analyses.
  cmp_cases; first [reflexivity | lra].
Qed.

(** C2, as the code has it. On pH 5.5, nitrogen 10, phosphorus 10 and
    potassium 50 the engine reports an acidic pH and three deficient
    nutrients, priority high, and exactly four actions: lime 8, nitrogen 2,
    phosphorus 2 and potassium 3 lbs per 1000 sq ft.  (5.5 and 50 are the
    lower ends of the rows 8 and 3 of the tables, not the upper ends of the
    rows 12 and 4.) *)
Theorem C2_scenario_acidic_deficient (float_str : Q -> string) (t : SoilTest) :
  models.ph t == 5.5 -> models.nitrogen t == 10 ->
  models.phosphorus t == 10 -> models.potassium t == 50 ->
  acidic_deficient_outcome float_str t 8 2 2 3 high.
Proof.
  intros Hph Hn Hp Hk.
  destruct (generate_fertilizer_recommendations_eq float_str t)
    as (ps & Hps & Hrun).
  assert (calculate_lime_requirement (models.ph t) = 8%Z) as Hlime
    by (unfold calculate_lime_requirement; cmp_cases; first [done | lra]).
  assert (calculate_nitrogen_requirement (models.nitrogen t) = 2%Z) as Hnit
    by (unfold calculate_nitrogen_requirement; cmp_cases; first [done | lra]).
  assert (calculate_phosphorus_requirement (models.phosphorus t) = 2%Z) as Hpho
    by (unfold calculate_phosphorus_requirement; cmp_cases; first [done | lra]).
  assert (calculate_potassium_requirement (models.potassium t) = 3%Z) as Hpot
    by (unfold calculate_potassium_requirement; cmp_cases; first [done | lra]).
  rewrite emitted_acidic_deficient, Hlime, Hnit, Hpho, Hpot in Hps, Hrun
    by lra.
  assert (ps = [high; medium; medium; medium]) as ->
    by (vm_compute in Hps; by injection Hps).
  eexists. split; [exact Hrun|].
  rewrite !(lookup_insert_ne _ _ "ph_recommendation"),
    !(lookup_insert_ne _ _ "nitrogen_recommendation"),
    !(lookup_insert_ne _ _ "phosphorus_recommendation"),
    !(lookup_insert_ne _ _ "potassium_recommendation") by done.
  rewrite analyses_ph_recommendation, analyses_nitrogen_recommendation,
    analyses_phosphorus_recommendation, analyses_potassium_recommendation.
  rewrite (lookup_insert_ne _ _ "priority"), !lookup_insert_eq by done.
  unfold_analyses.
  repeat split; cmp_cases; try lra; simpl;
    rewrite ?(lookup_insert_ne _ "priority") by done;
    by rewrite lookup_insert_eq.
Qed.

Lemma C2_scenario_acidic_deficient_witness :
  acidic_deficient_outcome ratio_str
    (soil_test "Field" 5.5 10 10 50 "2024-01-01") 8 2 2 3 high.
Proof. apply C2_scenario_acidic_deficient; reflexivity. Defined.

(** The claim as written gives lime 12 and potassium 4: on the code the
    actions list differs from that already in its first entry. *)
Lemma C2_counterexample :
  ~ acidic_deficient_outcome ratio_str
      (soil_test "Field" 5.5 10 10 50 "2024-01-01") 12 2 2 4 high.
Proof.
  intros (recs & Hrun & _ & _ & _ & _ & _ & Hacts).
  assert (match generate_fertilizer_recommendations ratio_str
                  (soil_test "Field" 5.5 10 10 50 "2024-01-01") with
          | Ok m => m !! "actions"
          | Raise _ => None
          end = Some (VList [lime_action 8; nitrogen_action 2;
                             phosphorus_action 2; potassium_action 3]))
    as Hcode by (vm_compute; reflexivity).
  rewrite Hrun, Hacts in Hcode.
  assert (lime_action 12 !! "amount" = lime_action 8 !! "amount") as Hlime
    by exact (f_equal (fun o => match o with
                                | Some (VList (a :: _)) => a !! "amount"
                                | _ => None
                                end) Hcode).
  unfold lime_action in Hlime. rewrite !action_dict_amount in Hlime.
  discriminate Hlime.
Qed.

(** ** The soil-health score *)

(** The bands of each measurement are nested. *)
Lemma bands_nested (x : Q) :
  Forall (fun b => (within (tightest b) x -> within (next_band b) x) /\
                   (within (next_band b) x -> within (widest b) x))
    [ph_bands; nitrogen_bands; phosphorus_bands; potassium_bands].
Proof. repeat constructor; unfold within in *; simpl in *; lra. Qed.

(** A contribution is a whole number of 250ths. *)
Lemma contributes_integral b x c :
  contributes b x c -> exists n, c * 250 == inject_Z n.
Proof.
  destruct 1; [exists 250%Z | exists 175%Z | exists 100%Z | exists 0%Z];
    reflexivity.
Qed.

(** One scoring step: a chain of three band tests adds the contribution of
    the measurement to the running score. *)
Lemma within_test (lo hi x : Q) : le lo x && le x hi = true <-> within (lo, hi) x.
Proof. unfold within. by rewrite andb_true_iff, !le_true. Qed.

Lemma band_chain (lo1 hi1 lo2 hi2 lo3 hi3 x s : Q) :
  exists c,
    contributes (Bands (lo1, hi1) (lo2, hi2) (lo3, hi3)) x c /\
    (if le lo1 x && le x hi1 then s + 1
     else if le lo2 x && le x hi2 then s + 0.7
     else if le lo3 x && le x hi3 then s + 0.4
     else s) == s + c.
Proof.
  destruct (le lo1 x && le x hi1) eqn:E1;
    [|destruct (le lo2 x && le x hi2) eqn:E2;
      [|destruct (le lo3 x && le x hi3) eqn:E3]];
    repeat match goal with
    | H : _ && _ = true |- _ => apply within_test in H
    | H : _ && _ = false |- _ =>
        apply not_true_iff_false in H; rewrite within_test in H
    end.
  - exists 1. split; [by apply contributes_tightest | reflexivity].
  - exists 0.7. split; [by apply contributes_next | reflexivity].
  - exists 0.4. split; [by apply contributes_widest | reflexivity].
  - exists 0. split; [by apply contributes_outside | symmetry; apply Qplus_0_r].
Qed.

Lemma ph_score_contributes t s :
  exists c, contributes ph_bands (models.ph t) c /\ ph_score t s == s + c.
Proof. apply band_chain. Qed.

Lemma nitrogen_score_contributes t s :
  exists c, contributes nitrogen_bands (models.nitrogen t) c /\
            nitrogen_score t s == s + c.
Proof. apply band_chain. Qed.

Lemma phosphorus_score_contributes t s :
  exists c, contributes phosphorus_bands (models.phosphorus t) c /\
            phosphorus_score t s == s + c.
Proof. apply band_chain. Qed.

Lemma potassium_score_contributes t s :
  exists c, contributes potassium_bands (models.potassium t) c /\
            potassium_score t s == s + c.
Proof. apply band_chain. Qed.

(** Rounding to one decimal leaves a whole number of tenths alone. *)
Lemma round1_exact (x : Q) (n : Z) : x * 10 == inject_Z n -> round1 x == x.
Proof.
  intros Hx. unfold round1, round_half_even.
  rewrite (Qfloor_comp _ _ Hx), Qfloor_Z.
  assert (lt (x * 10 - inject_Z n) (1 # 2) = true) as ->
    by (apply lt_true; lra).
  field_simplify_eq. lra.
Qed.

(** The status follows the four thresholds. *)
Lemma health_verdict_status (pct : Q) :
  (80 <= pct -> (health_verdict pct).1 = "Excellent") /\
  (60 <= pct /\ pct < 80 -> (health_verdict pct).1 = "Good") /\
  (40 <= pct /\ pct < 60 -> (health_verdict pct).1 = "Fair") /\
  (pct < 40 -> (health_verdict pct).1 = "Poor").
Proof.
  unfold health_verdict. repeat split; intros; cmp_cases;
    first [reflexivity | lra].
Qed.

Ltac band_cases :=
  repeat match goal with
  | |- context [if ?a && ?b then _ else _] => destruct (a && b)
  end.

(** The exact model and the binary64 run give the same status on every
    test. *)
Lemma binary64_status_agrees (t : SoilTest) :
  analyze_soil_health t !! "status" =
  Some (VStr (binary64.health_status (binary64.health_percentage t))).
Proof.
  unfold analyze_soil_health, binary64.health_percentage.
  unfold ph_score, nitrogen_score, phosphorus_score, potassium_score,
    binary64.ph_score, binary64.nitrogen_score, binary64.phosphorus_score,
    binary64.potassium_score.
  cbv zeta. band_cases; vm_compute; reflexivity.
Qed.

(** The binary64 percentage is within a thousandth of the exact one, which
    is a multiple of 2.5: rounding either to one decimal gives the same
    score. *)
Lemma binary64_percentage_close (t : SoilTest) :
  exists q score,
    binary64.to_Q (binary64.health_percentage t) = Some q /\
    analyze_soil_health t !! "score" = Some (VNum score) /\
    Qabs (q - score) < 1 # 1000.
Proof.
  unfold analyze_soil_health, binary64.health_percentage.
  unfold ph_score, nitrogen_score, phosphorus_score, potassium_score,
    binary64.ph_score, binary64.nitrogen_score, binary64.phosphorus_score,
    binary64.potassium_score.
  cbv zeta. band_cases;
    (eexists _, _; split; [vm_compute; reflexivity|];
     split; [vm_compute; reflexivity|]; vm_compute; reflexivity).
Qed.

(** C9. The health score is the sum of the four contributions (1.0 in the
    tightest band of a measurement, 0.7 in the next, 0.4 in the widest, 0
    outside all of them) divided by 4 and multiplied by 100; the status is
    Excellent from 80, Good from 60, Fair from 40 and Poor below. *)
Theorem C9_health_score (t : SoilTest) :
  exists c1 c2 c3 c4 score status,
    contributes ph_bands (models.ph t) c1 /\
    contributes nitrogen_bands (models.nitrogen t) c2 /\
    contributes phosphorus_bands (models.phosphorus t) c3 /\
    contributes potassium_bands (models.potassium t) c4 /\
    analyze_soil_health t !! "score" = Some (VNum score) /\
    score == (c1 + c2 + c3 + c4) / 4 * 100 /\
    analyze_soil_health t !! "status" = Some (VStr status) /\
    (80 <= score -> status = "Excellent") /\
    (60 <= score /\ score < 80 -> status = "Good") /\
    (40 <= score /\ score < 60 -> status = "Fair") /\
    (score < 40 -> status = "Poor").
Proof.
  unfold analyze_soil_health. cbv zeta.
  destruct (ph_score_contributes t 0) as (c1 & H1 & E1).
  destruct (nitrogen_score_contributes t (ph_score t 0)) as (c2 & H2 & E2).
  destruct (phosphorus_score_contributes t
              (nitrogen_score t (ph_score t 0))) as (c3 & H3 & E3).
  destruct (potassium_score_contributes t
              (phosphorus_score t (nitrogen_score t (ph_score t 0))))
    as (c4 & H4 & E4).
  set (hs := potassium_score t _) in *.
  assert (hs == c1 + c2 + c3 + c4) as Hhs
    by (rewrite E4, E3, E2, E1; ring).
  set (pct := hs / 4 * 100).
  assert (pct == (c1 + c2 + c3 + c4) / 4 * 100) as Hpct
    by (unfold pct; by rewrite Hhs).
  assert (round1 pct == pct) as Hround.
  { destruct (contributes_integral _ _ _ H1) as [n1 Hn1].
    destruct (contributes_integral _ _ _ H2) as [n2 Hn2].
    destruct (contributes_integral _ _ _ H3) as [n3 Hn3].
    destruct (contributes_integral _ _ _ H4) as [n4 Hn4].
    apply (round1_exact _ (n1 + n2 + n3 + n4)).
    rewrite !inject_Z_plus, <- Hn1, <- Hn2, <- Hn3, <- Hn4, Hpct.
    field. }
  pose proof (health_verdict_status pct) as (Hex & Hgood & Hfair & Hpoor).
  destruct (health_verdict pct) as [status description]. simpl in *.
  exists c1, c2, c3, c4, (round1 pct), status.
  repeat (split; [done|]).
  split; [by rewrite Hround|].
  split; [done|].
  rewrite Hround. auto.
Qed.

(** C9 on a test with every measurement in its tightest band. *)
Lemma C9_health_score_witness :
  analyze_soil_health (soil_test "Field" 6.5 30 30 200 "2024-01-01")
    !! "status" = Some (VStr "Excellent").
Proof.
  destruct (C9_health_score (soil_test "Field" 6.5 30 30 200 "2024-01-01"))
    as (c1 & c2 & c3 & c4 & score & status & _ & _ & _ & _ &
        Hscore & _ & Hstatus & Hexcellent & _).
  rewrite Hstatus. f_equal. f_equal. apply Hexcellent.
  assert (analyze_soil_health (soil_test "Field" 6.5 30 30 200 "2024-01-01")
            !! "score" = Some (VNum (1000 # 10))) as Hrun
    by (vm_compute; reflexivity).
  rewrite Hscore in Hrun. injection Hrun as ->. discriminate.
Defined.

(** * Further properties of the engine *)

(** ** The three nutrient classifications *)

Ltac nutrient_cases :=
  unfold appended; unfold_analyses;
  unfold calculate_nitrogen_requirement, calculate_phosphorus_requirement,
    calculate_potassium_requirement;
  repeat split; cmp_cases; try lra; simpl;
  rewrite ?lookup_insert_eq; auto.

(** Nitrogen is classified three ways.  Below 20 ppm the engine reports a
    deficiency and emits one medium-priority fertilizer action whose dosage
    is 4 or 2 (never the 1 of the last branch of
    [calculate_nitrogen_requirement]); above 50 ppm it reports an excess
    and emits one low-priority action whose amount is the instruction to
    test again in 6 months; from 20 to 50 ppm it reports an adequate level
    and emits no nitrogen action. *)
Theorem nitrogen_classification (float_str : Q -> string) (t : SoilTest) :
  exists recs acts,
    generate_fertilizer_recommendations float_str t = Ok recs /\
    recs !! "actions" = Some (VList acts) /\
    (models.nitrogen t < 20 ->
       recs !! "nitrogen_recommendation" =
         Some (VStr (nitrogen_text float_str deficient (models.nitrogen t))) /\
       actions_of_type "nitrogen" acts =
         [nitrogen_action (calculate_nitrogen_requirement (models.nitrogen t))] /\
       (calculate_nitrogen_requirement (models.nitrogen t) = 4 \/
        calculate_nitrogen_requirement (models.nitrogen t) = 2)%Z) /\
    (50 < models.nitrogen t ->
       recs !! "nitrogen_recommendation" =
         Some (VStr (nitrogen_text float_str excessive (models.nitrogen t))) /\
       actions_of_type "nitrogen" acts = [nitrogen_reduce_action]) /\
    (20 <= models.nitrogen t /\ models.nitrogen t <= 50 ->
       recs !! "nitrogen_recommendation" =
         Some (VStr (nitrogen_text float_str adequate (models.nitrogen t))) /\
       actions_of_type "nitrogen" acts = []).
Proof.
  destruct (generate_fertilizer_recommendations_eq float_str t)
    as (ps & Hps & ->).
  eexists _, _. split; [done|]. split; [apply lookup_insert_eq|].
  rewrite !(lookup_insert_ne _ _ "nitrogen_recommendation") by done.
  rewrite analyses_nitrogen_recommendation, actions_of_type_nitrogen.
  nutrient_cases.
Qed.

Lemma nitrogen_classification_witness :
  (exists recs acts,
     generate_fertilizer_recommendations ratio_str
       (soil_test "Field" 6.5 8 30 200 "2024-01-01") = Ok recs /\
     recs !! "actions" = Some (VList acts) /\
     actions_of_type "nitrogen" acts = [nitrogen_action 4]) /\
  (exists recs acts,
     generate_fertilizer_recommendations ratio_str
       (soil_test "Field" 6.5 50.5 30 200 "2024-01-01") = Ok recs /\
     recs !! "actions" = Some (VList acts) /\
     actions_of_type "nitrogen" acts = [nitrogen_reduce_action]) /\
  (exists recs acts,
     generate_fertilizer_recommendations ratio_str
       (soil_test "Field" 6.5 35 30 200 "2024-01-01") = Ok recs /\
     recs !! "actions" = Some (VList acts) /\
     actions_of_type "nitrogen" acts = []).
Proof.
  split; [|split].
  - destruct (nitrogen_classification ratio_str
                (soil_test "Field" 6.5 8 30 200 "2024-01-01"))
      as (recs & acts & Hrun & Hacts & Hlow & _ & _).
    exists recs, acts. split; [exact Hrun|]. split; [exact Hacts|].
    apply Hlow. reflexivity.
  - destruct (nitrogen_classification ratio_str
                (soil_test "Field" 6.5 50.5 30 200 "2024-01-01"))
      as (recs & acts & Hrun & Hacts & _ & Hhigh & _).
    exists recs, acts. split; [exact Hrun|]. split; [exact Hacts|].
    apply Hhigh. reflexivity.
  - destruct (nitrogen_classification ratio_str
                (soil_test "Field" 6.5 35 30 200 "2024-01-01"))
      as (recs & acts & Hrun & Hacts & _ & _ & Hmid).
    exists recs, acts. split; [exact Hrun|]. split; [exact Hacts|].
    apply Hmid. split; discriminate.
Defined.

(** Phosphorus is classified three ways.  Below 15 ppm the engine reports a
    deficiency and emits one medium-priority fertilizer action whose dosage
    is 3 or 2 (never the 1 of the last branch of
    [calculate_phosphorus_requirement]); above 50 ppm it reports an excess
    and emits one low-priority action whose amount is the instruction to use low or
    no-phosphorus fertilizers;
    from 15 to 50 ppm it reports a sufficient level and emits no
    phosphorus action. *)
Theorem phosphorus_classification (float_str : Q -> string) (t : SoilTest) :
  exists recs acts,
    generate_fertilizer_recommendations float_str t = Ok recs /\
    recs !! "actions" = Some (VList acts) /\
    (models.phosphorus t < 15 ->
       recs !! "phosphorus_recommendation" =
         Some (VStr (phosphorus_text float_str deficient (models.phosphorus t))) /\
       actions_of_type "phosphorus" acts =
         [phosphorus_action (calculate_phosphorus_requirement (models.phosphorus t))] /\
       (calculate_phosphorus_requirement (models.phosphorus t) = 3 \/
        calculate_phosphorus_requirement (models.phosphorus t) = 2)%Z) /\
    (50 < models.phosphorus t ->
       recs !! "phosphorus_recommendation" =
         Some (VStr (phosphorus_text float_str excessive (models.phosphorus t))) /\
       actions_of_type "phosphorus" acts = [phosphorus_skip_action]) /\
    (15 <= models.phosphorus t /\ models.phosphorus t <= 50 ->
       recs !! "phosphorus_recommendation" =
         Some (VStr (phosphorus_text float_str adequate (models.phosphorus t))) /\
       actions_of_type "phosphorus" acts = []).
Proof.
  destruct (generate_fertilizer_recommendations_eq float_str t)
    as (ps & Hps & ->).
  eexists _, _. split; [done|]. split; [apply lookup_insert_eq|].
  rewrite !(lookup_insert_ne _ _ "phosphorus_recommendation") by done.
  rewrite analyses_phosphorus_recommendation, actions_of_type_phosphorus.
  nutrient_cases.
Qed.

Lemma phosphorus_classification_witness :
  (exists recs acts,
     generate_fertilizer_recommendations ratio_str
       (soil_test "Field" 6.5 30 4 200 "2024-01-01") = Ok recs /\
     recs !! "actions" = Some (VList acts) /\
     actions_of_type "phosphorus" acts = [phosphorus_action 3]) /\
  (exists recs acts,
     generate_fertilizer_recommendations ratio_str
       (soil_test "Field" 6.5 30 51 200 "2024-01-01") = Ok recs /\
     recs !! "actions" = Some (VList acts) /\
     actions_of_type "phosphorus" acts = [phosphorus_skip_action]) /\
  (exists recs acts,
     generate_fertilizer_recommendations ratio_str
       (soil_test "Field" 6.5 30 15 200 "2024-01-01") = Ok recs /\
     recs !! "actions" = Some (VList acts) /\
     actions_of_type "phosphorus" acts = []).
Proof.
  split; [|split].
  - destruct (phosphorus_classification ratio_str
                (soil_test "Field" 6.5 30 4 200 "2024-01-01"))
      as (recs & acts & Hrun & Hacts & Hlow & _ & _).
    exists recs, acts. split; [exact Hrun|]. split; [exact Hacts|].
    apply Hlow. reflexivity.
  - destruct (phosphorus_classification ratio_str
                (soil_test "Field" 6.5 30 51 200 "2024-01-01"))
      as (recs & acts & Hrun & Hacts & _ & Hhigh & _).
    exists recs, acts. split; [exact Hrun|]. split; [exact Hacts|].
    apply Hhigh. reflexivity.
  - destruct (phosphorus_classification ratio_str
                (soil_test "Field" 6.5 30 15 200 "2024-01-01"))
      as (recs & acts & Hrun & Hacts & _ & _ & Hmid).
    exists recs, acts. split; [exact Hrun|]. split; [exact Hacts|].
    apply Hmid. split; discriminate.
Defined.

(** Potassium is classified three ways.  Below 100 ppm the engine reports a
    deficiency and emits one medium-priority fertilizer action whose dosage
    is 4 or 3 (never the 1 of the last branch of
    [calculate_potassium_requirement]); above 300 ppm it reports an excess
    and emits one low-priority action whose amount is the instruction to retest in
    12 months;
    from 100 to 300 ppm it reports a sufficient level and emits no
    potassium action. *)
Theorem potassium_classification (float_str : Q -> string) (t : SoilTest) :
  exists recs acts,
    generate_fertilizer_recommendations float_str t = Ok recs /\
    recs !! "actions" = Some (VList acts) /\
    (models.potassium t < 100 ->
       recs !! "potassium_recommendation" =
         Some (VStr (potassium_text float_str deficient (models.potassium t))) /\
       actions_of_type "potassium" acts =
         [potassium_action (calculate_potassium_requirement (models.potassium t))] /\
       (calculate_potassium_requirement (models.potassium t) = 4 \/
        calculate_potassium_requirement (models.potassium t) = 3)%Z) /\
    (300 < models.potassium t ->
       recs !! "potassium_recommendation" =
         Some (VStr (potassium_text float_str excessive (models.potassium t))) /\
       actions_of_type "potassium" acts = [potassium_reduce_action]) /\
    (100 <= models.potassium t /\ models.potassium t <= 300 ->
       recs !! "potassium_recommendation" =
         Some (VStr (potassium_text float_str adequate (models.potassium t))) /\
       actions_of_type "potassium" acts = []).
Proof.
  destruct (generate_fertilizer_recommendations_eq float_str t)
    as (ps & Hps & ->).
  eexists _, _. split; [done|]. split; [apply lookup_insert_eq|].
  rewrite !(lookup_insert_ne _ _ "potassium_recommendation") by done.
  rewrite analyses_potassium_recommendation, actions_of_type_potassium.
  nutrient_cases.
Qed.

Lemma potassium_classification_witness :
  (exists recs acts,
     generate_fertilizer_recommendations ratio_str
       (soil_test "Field" 6.5 30 30 50 "2024-01-01") = Ok recs /\
     recs !! "actions" = Some (VList acts) /\
     actions_of_type "potassium" acts = [potassium_action 3]) /\
  (exists recs acts,
     generate_fertilizer_recommendations ratio_str
       (soil_test "Field" 6.5 30 30 301 "2024-01-01") = Ok recs /\
     recs !! "actions" = Some (VList acts) /\
     actions_of_type "potassium" acts = [potassium_reduce_action]) /\
  (exists recs acts,
     generate_fertilizer_recommendations ratio_str
       (soil_test "Field" 6.5 30 30 300 "2024-01-01") = Ok recs /\
     recs !! "actions" = Some (VList acts) /\
     actions_of_type "potassium" acts = []).
Proof.
  split; [|split].
  - destruct (potassium_classification ratio_str
                (soil_test "Field" 6.5 30 30 50 "2024-01-01"))
      as (recs & acts & Hrun & Hacts & Hlow & _ & _).
    exists recs, acts. split; [exact Hrun|]. split; [exact Hacts|].
    apply Hlow. reflexivity.
  - destruct (potassium_classification ratio_str
                (soil_test "Field" 6.5 30 30 301 "2024-01-01"))
      as (recs & acts & Hrun & Hacts & _ & Hhigh & _).
    exists recs, acts. split; [exact Hrun|]. split; [exact Hacts|].
    apply Hhigh. reflexivity.
  - destruct (potassium_classification ratio_str
                (soil_test "Field" 6.5 30 30 300 "2024-01-01"))
      as (recs & acts & Hrun & Hacts & _ & _ & Hmid).
    exists recs, acts. split; [exact Hrun|]. split; [exact Hacts|].
    apply Hmid. split; discriminate.
Defined.

(** The three fertilizer dosages never rise with the measurement: the more
    of a nutrient the soil has, the less (or the same) is prescribed. *)
Theorem nutrient_dosage_monotone (x y : Q) :
  x <= y ->
  (calculate_nitrogen_requirement y <= calculate_nitrogen_requirement x)%Z /\
  (calculate_phosphorus_requirement y <= calculate_phosphorus_requirement x)%Z /\
  (calculate_potassium_requirement y <= calculate_potassium_requirement x)%Z.
Proof.
  intros Hle.
  unfold calculate_nitrogen_requirement, calculate_phosphorus_requirement,
    calculate_potassium_requirement.
  repeat split; cmp_cases; first [lia | lra].
Qed.

Lemma nutrient_dosage_monotone_witness :
  (calculate_nitrogen_requirement 12 <= calculate_nitrogen_requirement 9.5)%Z /\
  (calculate_phosphorus_requirement 12 <= calculate_phosphorus_requirement 9.5)%Z /\
  (calculate_potassium_requirement 12 <= calculate_potassium_requirement 9.5)%Z.
Proof. apply (nutrient_dosage_monotone 9.5 12). discriminate. Defined.

(** ** The overall priority and the shape of the actions list *)




(** The actions list holds at most one action of each of the four types,
    in the order pH, nitrogen, phosphorus, potassium, and nothing else; it
    is empty exactly when each measurement is within its neutral range (pH
    6.0-7.5, nitrogen 20-50, phosphorus 15-50, potassium 100-300) or is
    NaN, for which both comparisons of an analysis are false. *)
Theorem actions_structure (float_str : Q -> string) (t : ieee.SoilTest) :
  exists recs acts,
    ieee.generate_fertilizer_recommendations float_str t = Ok recs /\
    recs !! "actions" = Some (VList acts) /\
    acts = actions_of_type "pH adjustment" acts ++
           actions_of_type "nitrogen" acts ++
           actions_of_type "phosphorus" acts ++
           actions_of_type "potassium" acts /\
    (length (actions_of_type "pH adjustment" acts) <= 1)%nat /\
    (length (actions_of_type "nitrogen" acts) <= 1)%nat /\
    (length (actions_of_type "phosphorus" acts) <= 1)%nat /\
    (length (actions_of_type "potassium" acts) <= 1)%nat /\
    (acts = [] <->
       ieee.in_range_or_nan 6.0 7.5 (ieee.ph t) /\
       ieee.in_range_or_nan 20 50 (ieee.nitrogen t) /\
       ieee.in_range_or_nan 15 50 (ieee.phosphorus t) /\
       ieee.in_range_or_nan 100 300 (ieee.potassium t)).
Proof.
  destruct (ieee_generate_fertilizer_recommendations_eq float_str t)
    as (ps & Hps & ->).
  eexists _, _. split; [done|]. split; [apply lookup_insert_eq|].
  destruct (ieee_actions_of_type float_str t) as (-> & -> & -> & ->).
  split; [done|].
  split; [apply ieee_ph_analysis_types|].
  split; [apply ieee_nitrogen_analysis_types|].
  split; [apply ieee_phosphorus_analysis_types|].
  split; [apply ieee_potassium_analysis_types|].
  apply ieee_emitted_nil_iff.
Qed.

(** * Further properties of the soil-health score *)

Lemma contributes_range b x c :
  contributes b x c -> 0 <= c /\ c <= 1 /\ (c == 1 <-> within (tightest b) x).
Proof.
  destruct 1; (split; [lra|]); (split; [lra|]); split; intros; try done; lra.
Qed.

(** The returned score and status in terms of the four contributions. *)
Lemma analyze_soil_health_contributions (t : SoilTest) :
  exists c1 c2 c3 c4 score,
    contributes ph_bands (models.ph t) c1 /\
    contributes nitrogen_bands (models.nitrogen t) c2 /\
    contributes phosphorus_bands (models.phosphorus t) c3 /\
    contributes potassium_bands (models.potassium t) c4 /\
    analyze_soil_health t !! "score" = Some (VNum score) /\
    score == 25 * (c1 + c2 + c3 + c4) /\
    analyze_soil_health t !! "status" = Some (VStr (health_verdict score).1).
Proof.
  unfold analyze_soil_health. cbv zeta.
  destruct (ph_score_contributes t 0) as (c1 & H1 & E1).
  destruct (nitrogen_score_contributes t (ph_score t 0)) as (c2 & H2 & E2).
  destruct (phosphorus_score_contributes t
              (nitrogen_score t (ph_score t 0))) as (c3 & H3 & E3).
  destruct (potassium_score_contributes t
              (phosphorus_score t (nitrogen_score t (ph_score t 0))))
    as (c4 & H4 & E4).
  set (hs := potassium_score t _) in *.
  assert (hs / 4 * 100 == 25 * (c1 + c2 + c3 + c4)) as Hpct
    by (rewrite E4, E3, E2, E1; field).
  assert (round1 (hs / 4 * 100) == hs / 4 * 100) as Hround.
  { destruct (contributes_integral _ _ _ H1) as [n1 Hn1].
    destruct (contributes_integral _ _ _ H2) as [n2 Hn2].
    destruct (contributes_integral _ _ _ H3) as [n3 Hn3].
    destruct (contributes_integral _ _ _ H4) as [n4 Hn4].
    apply (round1_exact _ (n1 + n2 + n3 + n4)).
    rewrite !inject_Z_plus, <- Hn1, <- Hn2, <- Hn3, <- Hn4, Hpct. ring. }
  assert ((health_verdict (round1 (hs / 4 * 100))).1 =
          (health_verdict (hs / 4 * 100)).1) as Hverdict.
  { unfold health_verdict, ge, le. by rewrite !Hround. }
  destruct (health_verdict (hs / 4 * 100)) as [status description].
  exists c1, c2, c3, c4, (round1 (hs / 4 * 100)).
  repeat (split; [done|]).
  split; [by rewrite Hround|]. by rewrite Hverdict.
Qed.

(** The score lies between 0 and 100; it is 100 exactly when each of the
    four measurements is in its tightest band (pH 6.0-7.0, nitrogen 20-50,
    phosphorus 15-50, potassium 100-300); the status is one of Excellent,
    Good, Fair and Poor. *)
Theorem health_score_range (t : SoilTest) :
  exists score status,
    analyze_soil_health t !! "score" = Some (VNum score) /\
    analyze_soil_health t !! "status" = Some (VStr status) /\
    0 <= score /\ score <= 100 /\
    (score == 100 <->
       within (tightest ph_bands) (models.ph t) /\
       within (tightest nitrogen_bands) (models.nitrogen t) /\
       within (tightest phosphorus_bands) (models.phosphorus t) /\
       within (tightest potassium_bands) (models.potassium t)) /\
    (status = "Excellent" \/ status = "Good" \/ status = "Fair" \/
     status = "Poor").
Proof.
  destruct (analyze_soil_health_contributions t)
    as (c1 & c2 & c3 & c4 & score & H1 & H2 & H3 & H4 & Hscore & Hsum & Hstatus).
  destruct (contributes_range _ _ _ H1) as (? & ? & T1).
  destruct (contributes_range _ _ _ H2) as (? & ? & T2).
  destruct (contributes_range _ _ _ H3) as (? & ? & T3).
  destruct (contributes_range _ _ _ H4) as (? & ? & T4).
  exists score, (health_verdict score).1.
  split; [done|]. split; [done|].
  split; [lra|]. split; [lra|]. split.
  - rewrite <- T1, <- T2, <- T3, <- T4.
    split; [intros Hfull; repeat split; lra | intros (? & ? & ? & ?); lra].
  - unfold health_verdict. cmp_cases; simpl; auto.
Qed.

(** When the engine emits no action, the score tells a good soil from a
    NaN reading.  If no measurement is NaN the soil is rated Excellent,
    with a score of at least 92.5: the neutral ranges of the engine lie
    inside the tightest bands of the score, except for a pH in (7.0, 7.5],
    which still earns 0.7.  If a measurement is NaN, which no analysis of
    the engine reacts to, it earns nothing: the score is at most 75 and
    the status is not Excellent. *)
Theorem no_action_excellent (float_str : Q -> string) (t : ieee.SoilTest) recs :
  ieee.generate_fertilizer_recommendations float_str t = Ok recs ->
  recs !! "actions" = Some (VList []) ->
  exists score status,
    ieee.analyze_soil_health t !! "score" = Some (VNum score) /\
    ieee.analyze_soil_health t !! "status" = Some (VStr status) /\
    (~ ieee.has_nan t -> 92.5 <= score /\ status = "Excellent") /\
    (ieee.has_nan t -> score <= 75 /\ status <> "Excellent").
Proof.
  destruct (ieee_generate_fertilizer_recommendations_eq float_str t)
    as (ps & Hps & ->).
  intros [= <-]. rewrite lookup_insert_eq. intros [= Hnil].
  apply ieee_emitted_nil_iff in Hnil as (Hph & Hn & Hp & Hk).
  rewrite ieee_analyze_soil_health_scored_as.
  destruct (analyze_soil_health_contributions (ieee.scored_as_test t))
    as (c1 & c2 & c3 & c4 & score & H1 & H2 & H3 & H4 & Hscore & Hsum & Hstatus).
  simpl in H1, H2, H3, H4.
  destruct (contributes_range _ _ _ H1) as (? & ? & _).
  destruct (contributes_range _ _ _ H2) as (? & ? & _).
  destruct (contributes_range _ _ _ H3) as (? & ? & _).
  destruct (contributes_range _ _ _ H4) as (? & ? & _).
  exists score, (health_verdict score).1.
  split; [done|]. split; [done|]. split.
  - intros Hnan. unfold ieee.has_nan in Hnan.
    assert (0.7 <= c1).
    { destruct (ieee.ph t); simpl in *; try tauto;
        destruct H1; unfold within, ph_bands in *; simpl in *; lra. }
    assert (c2 == 1).
    { destruct (ieee.nitrogen t); simpl in *; try tauto;
        destruct H2; unfold within, nitrogen_bands in *; simpl in *; lra. }
    assert (c3 == 1).
    { destruct (ieee.phosphorus t); simpl in *; try tauto;
        destruct H3; unfold within, phosphorus_bands in *; simpl in *; lra. }
    assert (c4 == 1).
    { destruct (ieee.potassium t); simpl in *; try tauto;
        destruct H4; unfold within, potassium_bands in *; simpl in *; lra. }
    split; [lra|].
    unfold health_verdict. cmp_cases; first [reflexivity | lra].
  - intros Hnan.
    assert (score <= 75) as Hle.
    { destruct Hnan as [E|[E|[E|E]]]; rewrite E in *; simpl in *;
        [destruct H1 | destruct H2 | destruct H3 | destruct H4];
        unfold within in *; simpl in *; lra. }
    split; [done|].
    unfold health_verdict. cmp_cases; first [discriminate | lra].
Qed.

(** A pH of 7.4 with adequate nutrients: no action, Excellent.  A NaN pH
    with adequate nutrients: no action either, and not Excellent. *)
Lemma no_action_excellent_witness :
  (exists score status,
     ieee.analyze_soil_health
       (ieee.soil_test "Field" (ieee.Finite 7.4) (ieee.Finite 20)
          (ieee.Finite 50) (ieee.Finite 300) "2024-01-01")
       !! "status" = Some (VStr status) /\
     92.5 <= score /\ status = "Excellent") /\
  (exists score status,
     ieee.analyze_soil_health
       (ieee.soil_test "Field" ieee.NaN (ieee.Finite 20)
          (ieee.Finite 50) (ieee.Finite 300) "2024-01-01")
       !! "status" = Some (VStr status) /\
     score <= 75 /\ status <> "Excellent").
Proof.
  split.
  - destruct (ieee_generate_fertilizer_recommendations_eq ratio_str
                (ieee.soil_test "Field" (ieee.Finite 7.4) (ieee.Finite 20)
                   (ieee.Finite 50) (ieee.Finite 300) "2024-01-01"))
      as (ps & _ & Hrun).
    destruct (no_action_excellent ratio_str _ _ Hrun)
      as (score & status & _ & Hstatus & Hgood & _);
      [rewrite lookup_insert_eq; reflexivity|].
    exists score, status. split; [exact Hstatus|]. apply Hgood.
    intros [E|[E|[E|E]]]; discriminate E.
  - destruct (ieee_generate_fertilizer_recommendations_eq ratio_str
                (ieee.soil_test "Field" ieee.NaN (ieee.Finite 20)
                   (ieee.Finite 50) (ieee.Finite 300) "2024-01-01"))
      as (ps & _ & Hrun).
    destruct (no_action_excellent ratio_str _ _ Hrun)
      as (score & status & _ & Hstatus & _ & Hnan);
      [rewrite lookup_insert_eq; reflexivity|].
    exists score, status. split; [exact Hstatus|]. apply Hnan.
    left. reflexivity.
Defined.

(** * The request payload: validation and construction *)

Section ValidationFacts.
Import builtins.
Variable float_of_str : string -> option float_value.

Lemma range_test (lo hi : Q) (f : float_value) :
  float_lt f lo || float_gt f hi = false <-> within_or_nan lo hi f.
Proof.
  unfold within_or_nan. destruct f as [q| | |]; simpl.
  - rewrite orb_false_iff. unfold py.gt. rewrite !lt_false. split.
    + intros [? ?]. right. by exists q.
    + intros [|(q' & [= <-] & ? & ?)]; [done|done].
  - split; [done|]. intros [|(? & ? & _)]; done.
  - split; [done|]. intros [|(? & ? & _)]; done.
  - split; [by left|done].
Qed.

Lemma negative_test (f : float_value) :
  float_lt f 0 = false <-> not_negative f.
Proof.
  unfold not_negative. destruct f as [q| | |]; simpl.
  - rewrite lt_false. split.
    + intros ?. right. right. by exists q.
    + intros [|[|(q' & [= <-] & ?)]]; done.
  - split; [by right; left|done].
  - split; [done|]. intros [|[|(? & ? & _)]]; done.
  - split; [by left|done].
Qed.

Lemma app_singleton_not_nil {A} (l : list A) (x : A) : l ++ [x] <> [].
Proof. by destruct l. Qed.

(** One [try ... except (ValueError, TypeError)] check passes without an
    error exactly when no error was found before, the conversion returns
    and the range test is negative. *)
Lemma try_check_nil (arg : outcome float_value) (test : float_value -> bool)
    (errors : list string) (m1 m2 : string) :
  except_ValueError_TypeError
    (x ← arg; Return (if test x then errors ++ [m1] else errors))
    (Return (errors ++ [m2])) = Return [] <->
  errors = [] /\ exists f, arg = Return f /\ test f = false.
Proof.
  destruct arg as [f|e]; simpl.
  - destruct (test f) eqn:Ht; simpl; split.
    + intros [= H]. by apply app_singleton_not_nil in H.
    + intros (_ & f' & [= <-] & ?). congruence.
    + intros [= ->]. split; [done|]. by exists f.
    + intros (-> & _). done.
  - destruct e; simpl; split; try done;
      try (intros [= H]; by apply app_singleton_not_nil in H);
      intros (_ & ? & ? & _); done.
Qed.

Lemma try_check_throw (arg : outcome float_value) (test : float_value -> bool)
    (errors : list string) (m1 m2 : string) e :
  except_ValueError_TypeError
    (x ← arg; Return (if test x then errors ++ [m1] else errors))
    (Return (errors ++ [m2])) = Throw e ->
  arg = Throw e /\ e <> ValueError /\ e <> TypeError.
Proof.
  destruct arg as [f|e']; simpl; [by destruct (test f)|].
  destruct e'; simpl; intros [= <-]; done.
Qed.

Lemma float_throw x e :
  float float_of_str x = Throw e ->
  e = ValueError \/ e = TypeError \/ e = OverflowError.
Proof.
  destruct x; simpl; try (intros [= <-]; auto; fail); try done.
  - unfold float_of_int. case_match; intros [= <-]; auto.
  - case_match; intros [= <-]; auto.
Qed.

Lemma check_location_nil data errors :
  check_location data errors = Return [] <->
  errors = [] /\ exists s, data !! "location" = Some (OStr s) /\ strip s <> "".
Proof.
  unfold check_location, get_default.
  destruct (data !! "location") as [v|]; [destruct v|]; simpl;
    try (split; [done|intros (_ & ? & ? & _); done]).
  - case_bool_decide as Hs; simpl; split.
    + intros [= H]. by apply app_singleton_not_nil in H.
    + intros (_ & s' & [= <-] & ?). done.
    + intros [= ->]. split; [done|]. by exists s.
    + by intros (-> & _).
  - split; [|intros (_ & ? & ? & _); done].
    intros [= H]. by apply app_singleton_not_nil in H.
Qed.

Lemma check_location_throw data errors e :
  check_location data errors = Throw e <->
  e = AttributeError /\
  exists v, data !! "location" = Some v /\ forall s, v <> OStr s.
Proof.
  unfold check_location, get_default.
  destruct (data !! "location") as [v|]; [destruct v|]; simpl;
    try (split; [intros [= <-]; split; [done|]; eexists; split; [done|done]
                |by intros (-> & _)]).
  - split; [done|]. intros (_ & v & [= <-] & Hv). by destruct (Hv s).
  - split; [done|]. intros (_ & v & ? & _). done.
Qed.

Lemma check_ph_nil data errors :
  check_ph float_of_str data errors = Return [] <->
  errors = [] /\
  exists f, float float_of_str (get_default data "ph" (OInt 0)) = Return f /\
            within_or_nan 0 14 f.
Proof.
  unfold check_ph. rewrite try_check_nil.
  by setoid_rewrite range_test.
Qed.

Lemma check_nitrogen_nil data errors :
  check_nitrogen float_of_str data errors = Return [] <->
  errors = [] /\
  exists f, float float_of_str (get_default data "nitrogen" (OInt 0)) = Return f /\
            not_negative f.
Proof.
  unfold check_nitrogen. rewrite try_check_nil.
  by setoid_rewrite negative_test.
Qed.

Lemma check_phosphorus_nil data errors :
  check_phosphorus float_of_str data errors = Return [] <->
  errors = [] /\
  exists f, float float_of_str (get_default data "phosphorus" (OInt 0)) = Return f /\
            not_negative f.
Proof.
  unfold check_phosphorus. rewrite try_check_nil.
  by setoid_rewrite negative_test.
Qed.

Lemma check_potassium_nil data errors :
  check_potassium float_of_str data errors = Return [] <->
  errors = [] /\
  exists f, float float_of_str (get_default data "potassium" (OInt 0)) = Return f /\
            not_negative f.
Proof.
  unfold check_potassium. rewrite try_check_nil.
  by setoid_rewrite negative_test.
Qed.

(** A key whose value is not [None] is present: [data[k]] is that value. *)
Lemma getitem_present data k :
  is_not_none (get data k) = true -> getitem data k = Return (get data k).
Proof.
  unfold get, get_default, getitem. by destruct (data !! k).
Qed.

Lemma is_not_none_false x : is_not_none x = false <-> x = ONone.
Proof. by destruct x. Qed.

Lemma check_optional_nil data (errors : list string) k lo hi m1 m2 :
  (if is_not_none (get data k) then
     except_ValueError_TypeError
       (x ← (v ← getitem data k; float float_of_str v);
        Return (if float_lt x lo || float_gt x hi
                then errors ++ [m1] else errors))
       (Return (errors ++ [m2]))
   else Return errors) = Return [] <->
  errors = [] /\
  (get data k = ONone \/
   exists f, float float_of_str (get data k) = Return f /\
             within_or_nan lo hi f).
Proof.
  destruct (is_not_none (get data k)) eqn:Hk.
  - rewrite try_check_nil, (getitem_present _ _ Hk). simpl.
    setoid_rewrite range_test.
    split; [intros (-> & ?); auto|].
    intros (-> & [Hnone|?]); [|done].
    rewrite Hnone in Hk. done.
  - apply is_not_none_false in Hk. split.
    + intros [= ->]. auto.
    + by intros (-> & _).
Qed.

Lemma check_latitude_nil data errors :
  check_latitude float_of_str data errors = Return [] <->
  errors = [] /\
  (get data "latitude" = ONone \/
   exists f, float float_of_str (get data "latitude") = Return f /\
             within_or_nan (-90) 90 f).
Proof. apply check_optional_nil. Qed.

Lemma check_longitude_nil data errors :
  check_longitude float_of_str data errors = Return [] <->
  errors = [] /\
  (get data "longitude" = ONone \/
   exists f, float float_of_str (get data "longitude") = Return f /\
             within_or_nan (-180) 180 f).
Proof. apply check_optional_nil. Qed.

(** Shared by the facts about validation and about the handler. *)
Lemma validate_sound (data : gmap string object) :
  validate_soil_test_data float_of_str data = Return [] ->
  accepted float_of_str data.
Proof.
  unfold validate_soil_test_data, accepted. cbv zeta. intros H.
  destruct (check_location data []) as [e1|] eqn:H1;
    simpl in H; [|done].
  destruct (check_ph float_of_str data e1) as [e2|] eqn:H2;
    simpl in H; [|done].
  destruct (check_nitrogen float_of_str data e2) as [e3|] eqn:H3;
    simpl in H; [|done].
  destruct (check_phosphorus float_of_str data e3) as [e4|] eqn:H4;
    simpl in H; [|done].
  destruct (check_potassium float_of_str data e4) as [e5|] eqn:H5;
    simpl in H; [|done].
  destruct (check_latitude float_of_str data e5) as [e6|] eqn:H6;
    simpl in H; [|done].
  destruct (check_longitude float_of_str data e6) as [e7|] eqn:H7;
    simpl in H; [|done].
  injection H as ->.
  apply check_longitude_nil in H7 as (-> & ?).
  apply check_latitude_nil in H6 as (-> & ?).
  apply check_potassium_nil in H5 as (-> & ?).
  apply check_phosphorus_nil in H4 as (-> & ?).
  apply check_nitrogen_nil in H3 as (-> & ?).
  apply check_ph_nil in H2 as (-> & ?).
  apply check_location_nil in H1 as (_ & ?).
  done.
Qed.

(** The validator returns an empty error list exactly for the payloads
    with: a location that is a string with a character other than white
    space; a pH that converts to a float in [0, 14] or to NaN; nitrogen,
    phosphorus and potassium that convert to a float that is not negative
    (NaN and plus infinity included); a latitude and a longitude that are
    absent, null, or convert to a float in [-90, 90] and [-180, 180] or to
    NaN.  A measurement that is absent is read as 0 and accepted. *)
Theorem validate_accepts_iff (data : gmap string object) :
  validate_soil_test_data float_of_str data = Return [] <->
  accepted float_of_str data.
Proof.
  split; [apply validate_sound|].
  unfold validate_soil_test_data, accepted. cbv zeta.
  intros (Hloc & Hph & Hn & Hp & Hk & Hlat & Hlng).
  rewrite (proj2 (check_location_nil data []) (conj eq_refl Hloc)). simpl.
  rewrite (proj2 (check_ph_nil data []) (conj eq_refl Hph)). simpl.
  rewrite (proj2 (check_nitrogen_nil data []) (conj eq_refl Hn)). simpl.
  rewrite (proj2 (check_phosphorus_nil data []) (conj eq_refl Hp)). simpl.
  rewrite (proj2 (check_potassium_nil data []) (conj eq_refl Hk)). simpl.
  rewrite (proj2 (check_latitude_nil data []) (conj eq_refl Hlat)). simpl.
  rewrite (proj2 (check_longitude_nil data []) (conj eq_refl Hlng)). done.
Qed.

Lemma number_check_throw data k (errors : list string)
    (test : float_value -> bool) m1 m2 e :
  except_ValueError_TypeError
    (x ← float float_of_str (get_default data k (OInt 0));
     Return (if test x then errors ++ [m1] else errors))
    (Return (errors ++ [m2])) = Throw e ->
  e = OverflowError.
Proof.
  intros H. apply try_check_throw in H as (H & ? & ?).
  apply float_throw in H as [|[|]]; done.
Qed.

Lemma optional_check_throw data k (errors : list string)
    (test : float_value -> bool) m1 m2 e :
  (if is_not_none (get data k) then
     except_ValueError_TypeError
       (x ← (v ← getitem data k; float float_of_str v);
        Return (if test x then errors ++ [m1] else errors))
       (Return (errors ++ [m2]))
   else Return errors) = Throw e ->
  e = OverflowError.
Proof.
  destruct (is_not_none (get data k)) eqn:Hk; [|done].
  intros H. apply try_check_throw in H as (H & ? & ?).
  rewrite (getitem_present _ _ Hk) in H. simpl in H.
  apply float_throw in H as [|[|]]; done.
Qed.

Lemma later_checks_throw data errors e :
  check_ph float_of_str data errors = Throw e \/
  check_nitrogen float_of_str data errors = Throw e \/
  check_phosphorus float_of_str data errors = Throw e \/
  check_potassium float_of_str data errors = Throw e \/
  check_latitude float_of_str data errors = Throw e \/
  check_longitude float_of_str data errors = Throw e ->
  e = OverflowError.
Proof.
  intros [H|[H|[H|[H|[H|H]]]]].
  - eapply number_check_throw. exact H.
  - eapply number_check_throw. exact H.
  - eapply number_check_throw. exact H.
  - eapply number_check_throw. exact H.
  - eapply optional_check_throw. exact H.
  - eapply optional_check_throw. exact H.
Qed.

(** The validator does not always return: it throws [AttributeError]
    exactly when the payload has a location that is not a string (null, a
    number, a list, ...), and the only other exception it can throw is
    [OverflowError], from an integer too large for a float.  The
    [ValueError] and [TypeError] of a failed conversion never escape. *)
Theorem validate_throws (data : gmap string object) :
  (forall e, validate_soil_test_data float_of_str data = Throw e ->
             e = AttributeError \/ e = OverflowError) /\
  (validate_soil_test_data float_of_str data = Throw AttributeError <->
   exists v, data !! "location" = Some v /\ forall s, v <> OStr s).
Proof.
  assert (forall e, validate_soil_test_data float_of_str data = Throw e ->
            check_location data [] = Throw e \/
            (exists errs, check_location data [] = Return errs) /\
            e = OverflowError) as Hthrow.
  { intros e. unfold validate_soil_test_data. cbv zeta.
    destruct (check_location data []) as [e1|] eqn:H1; simpl; [|auto].
    intros H. right. split; [by eexists|].
    destruct (check_ph float_of_str data e1) as [e2|] eqn:H2; simpl in H;
      [|injection H as <-; eapply later_checks_throw; eauto 7].
    destruct (check_nitrogen float_of_str data e2) as [e3|] eqn:H3; simpl in H;
      [|injection H as <-; eapply later_checks_throw; eauto 7].
    destruct (check_phosphorus float_of_str data e3) as [e4|] eqn:H4;
      simpl in H; [|injection H as <-; eapply later_checks_throw; eauto 7].
    destruct (check_potassium float_of_str data e4) as [e5|] eqn:H5;
      simpl in H; [|injection H as <-; eapply later_checks_throw; eauto 7].
    destruct (check_latitude float_of_str data e5) as [e6|] eqn:H6;
      simpl in H; [|injection H as <-; eapply later_checks_throw; eauto 7].
    destruct (check_longitude float_of_str data e6) as [e7|] eqn:H7;
      simpl in H; [|injection H as <-; eapply later_checks_throw; eauto 7].
    done. }
  split.
  - intros e He. destruct (Hthrow e He) as [H|[_ ->]]; [|auto].
    apply check_location_throw in H as [-> _]. auto.
  - split.
    + intros He. destruct (Hthrow _ He) as [H|[_ ?]]; [|done].
      by apply check_location_throw in H as [_ ?].
    + intros Hv. unfold validate_soil_test_data. cbv zeta.
      by rewrite (proj2 (check_location_throw data [] AttributeError)
                    (conj eq_refl Hv)).
Qed.

End ValidationFacts.

Section CreateFacts.
Import builtins.
Variable float_of_str : string -> option float_value.

(** Validation reads a measurement with [data.get(k, 0)]; the handler
    reads it with [data[k]]. *)
Lemma getitem_float data k :
  is_Some (data !! k) ->
  (v ← getitem data k; float float_of_str v) =
  float float_of_str (get_default data k (OInt 0)).
Proof. intros [v Hv]. unfold getitem, get_default. by rewrite Hv. Qed.

(** A payload that passes validation and has the four measurement keys
    builds an instance in [create_soil_test]: the location is a non-blank
    string, the four measurements are floats within what the validator
    lets through, the coordinates and the notes are taken over as they
    are, the id is [None] and an absent or false test date is replaced by
    the current day. *)
Theorem validated_create_returns (today : string) (data : gmap string object) :
  validate_soil_test_data float_of_str data = Return [] ->
  is_Some (data !! "ph") -> is_Some (data !! "nitrogen") ->
  is_Some (data !! "phosphorus") -> is_Some (data !! "potassium") ->
  exists s ph nitrogen phosphorus potassium,
    create_soil_test_instance float_of_str today data =
      Return {| instance.id := ONone;
                instance.location := OStr s;
                instance.latitude := get data "latitude";
                instance.longitude := get data "longitude";
                instance.ph := OFloat ph;
                instance.nitrogen := OFloat nitrogen;
                instance.phosphorus := OFloat phosphorus;
                instance.potassium := OFloat potassium;
                instance.notes := get_default data "notes" (OStr "");
                instance.test_date :=
                  or_else (get_default data "testDate" (OStr today))
                    (OStr today) |} /\
    strip s <> "" /\ within_or_nan 0 14 ph /\ not_negative nitrogen /\
    not_negative phosphorus /\ not_negative potassium.
Proof.
  intros Hvalid Hph Hn Hp Hk.
  apply validate_sound in Hvalid
    as ((s & Hs & ?) & (ph & Eph & ?) & (n & En & ?) & (p & Ep & ?) &
        (k & Ek & ?) & _).
  exists s, ph, n, p, k. split; [|done].
  unfold create_soil_test_instance.
  rewrite !getitem_float by done. rewrite Eph, En, Ep, Ek.
  unfold getitem. by rewrite Hs.
Qed.

(** Passing validation does not make [create_soil_test] safe: the
    validator reads a missing measurement as 0, the handler indexes the
    payload, so a validated payload that lacks a measurement makes the
    [SoilTest(...)] expression throw [KeyError] for the first measurement
    missing, in the order pH, nitrogen, phosphorus, potassium. *)
Theorem validated_create_missing_key (today : string)
    (data : gmap string object) :
  validate_soil_test_data float_of_str data = Return [] ->
  (data !! "ph" = None ->
   create_soil_test_instance float_of_str today data =
     Throw (KeyError "ph")) /\
  (is_Some (data !! "ph") -> data !! "nitrogen" = None ->
   create_soil_test_instance float_of_str today data =
     Throw (KeyError "nitrogen")) /\
  (is_Some (data !! "ph") -> is_Some (data !! "nitrogen") ->
   data !! "phosphorus" = None ->
   create_soil_test_instance float_of_str today data =
     Throw (KeyError "phosphorus")) /\
  (is_Some (data !! "ph") -> is_Some (data !! "nitrogen") ->
   is_Some (data !! "phosphorus") -> data !! "potassium" = None ->
   create_soil_test_instance float_of_str today data =
     Throw (KeyError "potassium")).
Proof.
  intros Hvalid.
  apply validate_sound in Hvalid
    as ((s & Hs & ?) & (ph & Eph & ?) & (n & En & ?) & (p & Ep & ?) &
        (k & Ek & ?) & _).
  unfold create_soil_test_instance.
  split; [|split; [|split]].
  - intros Hnone. unfold getitem. rewrite Hs, Hnone. reflexivity.
  - intros ? Hnone. rewrite (getitem_float data "ph"), Eph by done.
    unfold getitem. rewrite Hs, Hnone. reflexivity.
  - intros ? ? Hnone.
    rewrite (getitem_float data "ph"), (getitem_float data "nitrogen"),
      Eph, En by done.
    unfold getitem. rewrite Hs, Hnone. reflexivity.
  - intros ? ? ? Hnone.
    rewrite (getitem_float data "ph"), (getitem_float data "nitrogen"),
      (getitem_float data "phosphorus"), Eph, En, Ep by done.
    unfold getitem. rewrite Hs, Hnone. reflexivity.
Qed.

End CreateFacts.

Section InstanceFacts.
Import builtins.

(** [from_dict] undoes [to_dict] on every attribute, except that a test
    date that is false ([None], the empty string, ...) comes back as the
    current day; with a true test date the round trip is the identity. *)
Theorem from_dict_to_dict (today : string) (self : instance.attrs) :
  instance.from_dict today (instance.to_dict self) =
    Return {| instance.id := instance.id self;
              instance.location := instance.location self;
              instance.latitude := instance.latitude self;
              instance.longitude := instance.longitude self;
              instance.ph := instance.ph self;
              instance.nitrogen := instance.nitrogen self;
              instance.phosphorus := instance.phosphorus self;
              instance.potassium := instance.potassium self;
              instance.notes := instance.notes self;
              instance.test_date :=
                or_else (instance.test_date self) (OStr today) |} /\
  (truth (instance.test_date self) = true ->
   instance.from_dict today (instance.to_dict self) = Return self).
Proof.
  destruct self as [id loc lat lng ph n p k notes date].
  split; [reflexivity|].
  simpl. intros Hdate.
  change (Return (instance.init today loc ph n p k lat lng notes date id) =
          Return (instance.Build_attrs id loc lat lng ph n p k notes date)).
  unfold instance.init, or_else. by rewrite Hdate.
Qed.

(** [from_dict] throws [KeyError] for the first key missing among
    location, ph, nitrogen, phosphorus and potassium, in that order; when
    all five are present it returns an instance whose dictionary agrees
    with the payload on them.  The keys id, latitude, longitude, notes and
    testDate are optional. *)
Theorem from_dict_missing_key (today : string) (data : gmap string object) :
  (data !! "location" = None ->
   instance.from_dict today data = Throw (KeyError "location")) /\
  (is_Some (data !! "location") -> data !! "ph" = None ->
   instance.from_dict today data = Throw (KeyError "ph")) /\
  (is_Some (data !! "location") -> is_Some (data !! "ph") ->
   data !! "nitrogen" = None ->
   instance.from_dict today data = Throw (KeyError "nitrogen")) /\
  (is_Some (data !! "location") -> is_Some (data !! "ph") ->
   is_Some (data !! "nitrogen") -> data !! "phosphorus" = None ->
   instance.from_dict today data = Throw (KeyError "phosphorus")) /\
  (is_Some (data !! "location") -> is_Some (data !! "ph") ->
   is_Some (data !! "nitrogen") -> is_Some (data !! "phosphorus") ->
   data !! "potassium" = None ->
   instance.from_dict today data = Throw (KeyError "potassium")) /\
  (is_Some (data !! "location") -> is_Some (data !! "ph") ->
   is_Some (data !! "nitrogen") -> is_Some (data !! "phosphorus") ->
   is_Some (data !! "potassium") ->
   exists self, instance.from_dict today data = Return self /\
     forall k, k ∈ ["location"; "ph"; "nitrogen"; "phosphorus"; "potassium"] ->
       instance.to_dict self !! k = data !! k).
Proof.
  unfold instance.from_dict, getitem.
  repeat split; intros;
    repeat match goal with
    | H : is_Some (_ !! _) |- _ => destruct H as [? H]; rewrite H
    | H : _ !! _ = None |- _ => rewrite H
    end; try reflexivity.
  eexists. split; [reflexivity|].
  intros k Hk. rewrite !elem_of_cons, elem_of_nil in Hk.
  destruct Hk as [->|[->|[->|[->|[->|[]]]]]]; by symmetry.
Qed.
End InstanceFacts.

Section PayloadWitnesses.
Import builtins.

Lemma validate_accepts_iff_witness :
  validate_soil_test_data no_literals location_only_payload = Return [].
Proof.
  apply validate_accepts_iff. unfold accepted.
  split; [exists "North field"; split; [reflexivity|discriminate]|].
  split; [exists (Finite 0); split; [reflexivity|]; right; exists 0;
          split; [reflexivity|split; discriminate]|].
  do 3 (split; [exists (Finite 0); split; [reflexivity|]; right; right;
                exists 0; split; [reflexivity|discriminate]|]).
  split; left; reflexivity.
Defined.

Lemma validate_throws_witness :
  validate_soil_test_data no_literals null_location_payload =
    Throw AttributeError.
Proof.
  apply (validate_throws no_literals null_location_payload).
  exists ONone. split; [reflexivity|discriminate].
Defined.

Lemma validated_create_returns_witness :
  exists self,
    create_soil_test_instance no_literals "2024-01-01" complete_payload =
      Return self /\
    instance.ph self = OFloat (Finite 6.5) /\
    instance.test_date self = OStr "2024-01-01".
Proof.
  destruct (validated_create_returns no_literals "2024-01-01"
              complete_payload)
    as (s & ph & n & p & k & Hrun & _);
    [vm_compute; reflexivity | eexists; reflexivity ..|].
  eexists. split; [exact Hrun|].
  assert (create_soil_test_instance no_literals "2024-01-01"
            complete_payload =
          Return (instance.init "2024-01-01" (OStr "North field")
                    (OFloat (Finite 6.5)) (OFloat (Finite 30))
                    (OFloat (Finite 30)) (OFloat (Finite 200))
                    (OFloat (Finite 27.7)) ONone (OStr "after rain")
                    (OStr "2024-01-01") ONone)) as Hcode
    by reflexivity.
  rewrite Hrun in Hcode. injection Hcode as _ -> _ _ _. split; reflexivity.
Defined.

Lemma validated_create_missing_key_witness :
  validate_soil_test_data no_literals location_only_payload = Return [] /\
  create_soil_test_instance no_literals "2024-01-01" location_only_payload =
    Throw (KeyError "ph").
Proof.
  assert (validate_soil_test_data no_literals location_only_payload =
          Return []) as Hvalid by (vm_compute; reflexivity).
  split; [exact Hvalid|].
  apply (validated_create_missing_key no_literals "2024-01-01" _ Hvalid).
  reflexivity.
Defined.

Lemma from_dict_to_dict_witness :
  instance.from_dict "2025-06-30"
    (instance.to_dict
       (instance.of_soil_test
          (soil_test "Field" 6.5 30 30 200 "2024-01-01"))) =
  Return (instance.of_soil_test (soil_test "Field" 6.5 30 30 200 "2024-01-01")).
Proof. apply from_dict_to_dict. reflexivity. Defined.

Lemma from_dict_missing_key_witness :
  instance.from_dict "2025-06-30" location_only_payload =
    Throw (KeyError "ph").
Proof.
  apply from_dict_missing_key; [eexists|]; reflexivity.
Defined.

End PayloadWitnesses.

(** * The CSV export *)


Section ExportFacts.
Variable float_str : Q -> string.

(** The export cannot tell a coordinate of 0 from a missing one: a
    latitude or longitude that is zero is written as an empty field, as
    [None] is. *)
Theorem csv_line_zero_coordinate (t : SoilTest) (lat lng : option Q) :
  (forall q, lat = Some q -> q == 0) ->
  (forall q, lng = Some q -> q == 0) ->
  csv_line float_str
    {| models.id := models.id t; models.location := models.location t;
       models.latitude := lat; models.longitude := lng;
       models.ph := models.ph t; models.nitrogen := models.nitrogen t;
       models.phosphorus := models.phosphorus t;
       models.potassium := models.potassium t;
       models.notes := models.notes t;
       models.test_date := models.test_date t |} =
  csv_line float_str
    {| models.id := models.id t; models.location := models.location t;
       models.latitude := None; models.longitude := None;
       models.ph := models.ph t; models.nitrogen := models.nitrogen t;
       models.phosphorus := models.phosphorus t;
       models.potassium := models.potassium t;
       models.notes := models.notes t;
       models.test_date := models.test_date t |}.
Proof.
  intros Hlat Hlng. unfold csv_line. simpl.
  assert (forall x : option Q, (forall q, x = Some q -> q == 0) ->
            float_or_empty float_str x = "") as Hzero.
  { intros [q|] Hq; [|done]. simpl.
    by rewrite (proj2 (Qeq_bool_iff q 0) (Hq q eq_refl)). }
  by rewrite (Hzero lat Hlat), (Hzero lng Hlng).
Qed.

End ExportFacts.

Lemma csv_line_zero_coordinate_witness :
  csv_line ratio_str
    {| models.id := Some 1%Z; models.location := "Equator";
       models.latitude := Some 0; models.longitude := Some 0;
       models.ph := 6.5; models.nitrogen := 30;
       models.phosphorus := 30; models.potassium := 200;
       models.notes := ""; models.test_date := "2024-01-01" |} =
  csv_line ratio_str
    {| models.id := Some 1%Z; models.location := "Equator";
       models.latitude := None; models.longitude := None;
       models.ph := 6.5; models.nitrogen := 30;
       models.phosphorus := 30; models.potassium := 200;
       models.notes := ""; models.test_date := "2024-01-01" |}.
Proof.
  apply (csv_line_zero_coordinate ratio_str
           {| models.id := Some 1%Z; models.location := "Equator";
              models.latitude := None; models.longitude := None;
              models.ph := 6.5; models.nitrogen := 30;
              models.phosphorus := 30; models.potassium := 200;
              models.notes := ""; models.test_date := "2024-01-01" |}
           (Some 0) (Some 0)); intros q [= <-]; reflexivity.
Defined.
